(** * diligent: the recursive follow-up analysis engine of [main.go]

    A shallow embedding of [truncateOutput], [executeCommand], [callOpenAI],
    [analyze], [indent] and the check loop of [main], with the properties of
    the engine proved about it.

    Go strings are byte strings: [string] here is a list of bytes, [len] is
    the number of bytes, and [s[:n]] cuts bytes.  A Go [int] is a [Z]; the
    only arithmetic on it is [currentDepth++] below [maxFollowups], which
    cannot wrap.  A Go [error] is represented by its message, [nil] by [None].
    Run-time panics (slice bounds, [strings.Repeat], indexing) are results of
    their own, so a theorem that says that a call returns excludes them. *)

From Equations Require Import Equations.
From Stdlib Require Import ZArith String Ascii List Bool Lia.
Import ListNotations.

Open Scope string_scope.
Open Scope list_scope.
Open Scope Z_scope.

(** Go's [+] on strings. *)
Infix "+++" := String.append (at level 60, right associativity).

(** ** The fragment of Go the program uses *)

Module Go.

(** The outcome of evaluating a Go expression: a value or a panic. *)
Inductive Res (A : Type) : Type :=
| Ret (a : A)
| Panic (msg : string).
Arguments Ret {A} a.
Arguments Panic {A} msg.

(** An [error] value, by its [Error()] text; [None] is [nil]. *)
Definition error := string.

Definition errors_New (text : string) : error := text.

(** Largest [int] of a 64-bit platform. *)
Definition maxInt : Z := 2 ^ 63 - 1.

(** [len(s)] *)
Definition len (s : string) : Z := Z.of_nat (String.length s).

(** [s[:hi]]; Go panics unless [0 <= hi <= len(s)]. *)
Definition slice_to (s : string) (hi : Z) : Res string :=
  if (hi <? 0) || (len s <? hi)
  then Panic "runtime error: slice bounds out of range"
  else Ret (substring 0 (Z.to_nat hi) s).

Fixpoint repeat_string (s : string) (n : nat) : string :=
  match n with
  | O => ""
  | S n' => s +++ repeat_string s n'
  end.

(** [strings.Repeat(s, count)]: panics on a negative count and when the
    length of the result overflows an [int]. *)
Definition strings_Repeat (s : string) (count : Z) : Res string :=
  if count =? 0 then Ret ""
  else if count =? 1 then Ret s
  else if count <? 0 then Panic "strings: negative Repeat count"
  else if maxInt <? len s * count
       then Panic "strings: Repeat output length overflow"
       else Ret (repeat_string s (Z.to_nat count)).

(** The line feed, written backslash-n in Go. *)
Definition nl : string := String (ascii_of_nat 10) EmptyString.

(** The double quote character. *)
Definition dq : string := String (ascii_of_nat 34) EmptyString.

End Go.
Import Go.

(** ** Constants (main.go, lines 19-23) *)

Definition maxFollowups : Z := 5.
Definition maxOutputCharacters : Z := 3000.
(** [commandTimeout], in nanoseconds as [time.Duration] counts them. *)
Definition commandTimeout : Z := 10 * 1000000000.

(** The follow-up levels still allowed below a call at [depth]. *)
Definition levels_left (depth : Z) : nat := Z.to_nat (maxFollowups - depth).
Arguments levels_left : simpl never.

(** ** truncateOutput (main.go, lines 240-246) *)

Definition truncateOutput (output : string) (maxLen : Z) : Res string :=
  if len output >? maxLen then slice_to output maxLen else Ret output.

(** ** Data model (main.go, lines 25-60) *)

Record Check : Type := mkCheck {
  chk_Command : string;
  chk_Prompt : string
}.

(** GPTResponse: the verdict parsed from the oracle's reply. *)
Record GPTResponse : Type := mkGPTResponse {
  resp_Flagged : bool;
  resp_Description : string;
  FollowUpPrompt : string;
  FollowUpCommand : string;
  resp_Alert : string
}.

(** [GPTResponse{}] *)
Definition GPTResponse_zero : GPTResponse := mkGPTResponse false "" "" "" "".

(** AnalysisItem: one node of the result tree. *)
#[local] Unset Elimination Schemes.
Inductive AnalysisItem : Type := mkAnalysisItem {
  Prompt : string;
  Command : string;
  Flagged : bool;
  AnalysisDescription : string;
  Alert : string;
  RawOutput : string;
  FollowUps : list AnalysisItem
}.

#[local] Set Elimination Schemes.

Record Report : Type := mkReport { Items : list AnalysisItem }.

(** Field assignments [item.F = v]. *)
Definition set_Flagged (v : bool) (i : AnalysisItem) : AnalysisItem :=
  mkAnalysisItem (Prompt i) (Command i) v (AnalysisDescription i) (Alert i)
                 (RawOutput i) (FollowUps i).
Definition set_AnalysisDescription (v : string) (i : AnalysisItem) : AnalysisItem :=
  mkAnalysisItem (Prompt i) (Command i) (Flagged i) v (Alert i)
                 (RawOutput i) (FollowUps i).
Definition set_Alert (v : string) (i : AnalysisItem) : AnalysisItem :=
  mkAnalysisItem (Prompt i) (Command i) (Flagged i) (AnalysisDescription i) v
                 (RawOutput i) (FollowUps i).
Definition set_RawOutput (v : string) (i : AnalysisItem) : AnalysisItem :=
  mkAnalysisItem (Prompt i) (Command i) (Flagged i) (AnalysisDescription i)
                 (Alert i) v (FollowUps i).
Definition set_FollowUps (v : list AnalysisItem) (i : AnalysisItem) : AnalysisItem :=
  mkAnalysisItem (Prompt i) (Command i) (Flagged i) (AnalysisDescription i)
                 (Alert i) (RawOutput i) v.

(** Measures of a result tree: the number of follow-up levels below the
    root, and the nodes in the order they were produced. *)
Fixpoint height (i : AnalysisItem) : nat :=
  match FollowUps i with
  | [] => O
  | _ => S (list_max (map height (FollowUps i)))
  end.

Fixpoint nodes (i : AnalysisItem) : list AnalysisItem :=
  i :: flat_map nodes (FollowUps i).

(** ** The outside world

    What [os/exec], the chat-completion client and [encoding/json] hand
    back is not computed by this program.  The state of the outside is a
    type [W]; each call into it reads and advances that state, and is
    recorded as an event, so that a theorem can say which calls were made. *)

(** What [cmd.CombinedOutput()] and [ctx.Err()] report after running
    [sh -c command] under the deadline. *)
Record CmdOutcome : Type := mkCmdOutcome {
  out_bytes : string;               (* the output captured, also when partial *)
  out_err : option error;           (* err of CombinedOutput *)
  out_deadline_exceeded : bool      (* errors.Is(ctx.Err(), DeadlineExceeded) *)
}.

Inductive Role : Type := RoleSystem | RoleUser.

Record ChatCompletionMessage : Type := mkMessage {
  msg_Role : Role;
  msg_Content : string
}.

Record ChatCompletionRequest : Type := mkRequest {
  req_MaxTokens : Z;
  req_Model : string;
  req_Messages : list ChatCompletionMessage
}.

(** [resp.Choices], each choice by its [Message.Content]. *)
Record ChatCompletionResponse : Type := mkResponse {
  Choices : list string
}.

(** [openai.GPT4oMini20240718] *)
Definition GPT4oMini20240718 : string := "gpt-4o-mini-2024-07-18".

Inductive Event : Type :=
| Stdout (text : string)                           (* fmt.Printf *)
| Exec (argv : list string) (timeout : Z)          (* exec.CommandContext + CombinedOutput *)
| ChatCompletion (req : ChatCompletionRequest).    (* client.CreateChatCompletion *)

Definition is_ChatCompletion (e : Event) : bool :=
  match e with ChatCompletion _ => true | _ => false end.

(** The content of the user message of a request. *)
Definition user_content (req : ChatCompletionRequest) : list string :=
  map msg_Content
      (filter (fun m => match msg_Role m with RoleUser => true | _ => false end)
              (req_Messages req)).

(** The context prompts sent to the oracle, in order. *)
Definition oracle_prompts (evs : list Event) : list string :=
  flat_map (fun e => match e with
                     | ChatCompletion req => user_content req
                     | _ => []
                     end) evs.

(** The shell commands executed, in order. *)
Definition executed_commands (evs : list Event) : list (list string) :=
  flat_map (fun e => match e with Exec argv _ => [argv] | _ => [] end) evs.

(** A computation: from a state of the outside to an outcome, the state
    reached and the events of the calls made. *)
Definition M (W A : Type) : Type := W -> Res A * W * list Event.

Definition ret {W A} (a : A) : M W A := fun w => (Ret a, w, []).

Definition bind {W A B} (m : M W A) (k : A -> M W B) : M W B :=
  fun w =>
    match m w with
    | (Ret a, w1, e1) => let '(r, w2, e2) := k a w1 in (r, w2, e1 ++ e2)
    | (Panic msg, w1, e1) => (Panic msg, w1, e1)
    end.

Definition lift {W A} (r : Res A) : M W A := fun w => (r, w, []).

Notation "x <- m ;; k" := (bind m (fun x => k))
  (at level 61, m at next level, right associativity).
Notation "' p <- m ;; k" := (bind m (fun x => let 'p := x in k))
  (at level 61, p pattern, m at next level, right associativity).
Notation "m ;;; k" := (bind m (fun _ => k))
  (at level 61, right associativity).

(** [fmt.Printf] of an already formatted text. *)
Definition Printf {W} (text : string) : M W unit :=
  fun w => (Ret tt, w, [Stdout text]).

(** [fmt.Sprintf] and [fmt.Errorf] with the verbs [%s], [%v] and [%w]
    concatenate; the definitions below write the concatenation out. *)

(** ** indent (main.go, lines 323-326) *)

Definition indent (depth : Z) : Res string := strings_Repeat "  " depth.

(** ** detectOS (main.go, lines 164-175) *)

Definition detectOS (GOOS : string) : string :=
  if String.eqb GOOS "darwin" then "macOS"
  else if String.eqb GOOS "linux" then "Linux"
  else if String.eqb GOOS "windows" then "Windows"
  else "Unsupported OS".

Definition systemMessage (os : string) : string :=
  "You are a careful and accurate system analyst. Our operating system is "
  +++ os +++ "." +++ nl
  +++ "Your task is to evaluate the provided command output in the context of the given prompt and determine if there is any truly suspicious activity. If you identify any issues, set flagged to true, provide a description of the problem and a follow up GPT prompt terminal command to analyse it in a more detailed way." +++ nl
  +++ "Return data as JSON:" +++ nl
  +++ "{" +++ nl
  +++ "  " +++ dq +++ "flagged" +++ dq +++ ": boolean," +++ nl
  +++ "  " +++ dq +++ "description" +++ dq +++ ": string," +++ nl
  +++ "  " +++ dq +++ "follow_up_prompt" +++ dq +++ ": string," +++ nl
  +++ "  " +++ dq +++ "follow_up_command" +++ dq +++ ": string," +++ nl
  +++ "  " +++ dq +++ "alert" +++ dq +++ ": string" +++ nl
  +++ "}" +++ nl
  +++ "Do not include any extra text outside of the JSON object.".

(** The request of callOpenAI (main.go, lines 193-206). *)
Definition chatRequest (os prompt : string) : ChatCompletionRequest :=
  mkRequest 8100 GPT4oMini20240718
    [ mkMessage RoleSystem (systemMessage os);
      mkMessage RoleUser prompt ].

(** [fullPrompt] of analyze (main.go, line 273):
    [fmt.Sprintf] of the command and the truncated output. *)
Definition fullPrompt (command truncatedOutput : string) : string :=
  command +++ nl +++ nl +++ "Command output (truncated):" +++ nl
  +++ truncatedOutput.

Section Engine.

(** The state of the outside world. *)
Variable W : Type.

(** [runtime.GOOS] *)
Variable GOOS : string.

(** Running [sh -c command] under [commandTimeout]. *)
Variable CombinedOutput : string -> W -> CmdOutcome * W.

(** [client.CreateChatCompletion]: the response and the error, as Go
    returns them; the response is meaningless when the error is set. *)
Variable CreateChatCompletion :
  ChatCompletionRequest -> W -> (ChatCompletionResponse * option error) * W.

(** [json.Unmarshal] of a reply into a zero [GPTResponse]: the value
    decoded and the error. *)
Variable json_Unmarshal : string -> GPTResponse * option error.

(** *** callOpenAI (main.go, lines 177-218) *)

Definition callOpenAI (prompt : string) : M W (GPTResponse * option error) :=
  let os := detectOS GOOS in
  let req := chatRequest os prompt in
  '(resp, err) <- (fun w => let '(r, w') := CreateChatCompletion req w in
                            (Ret r, w', [ChatCompletion req])) ;;
  match err with
  | Some e => ret (GPTResponse_zero, Some e)
  | None =>
      (* resp.Choices[0] *)
      content <- lift (match Choices resp with
                       | c :: _ => Ret c
                       | [] => Panic "runtime error: index out of range [0] with length 0"
                       end) ;;
      let '(gptResp, err) := json_Unmarshal content in
      match err with
      | Some e => ret (GPTResponse_zero,
                       Some ("failed to parse GPT response: " +++ e))
      | None => ret (gptResp, None)
      end
  end.

(** *** executeCommand (main.go, lines 220-238) *)

Definition executeCommand (command : string) : M W (string * option error) :=
  o <- (fun w => let '(o, w') := CombinedOutput command w in
                 (Ret o, w', [Exec ["sh"; "-c"; command] commandTimeout])) ;;
  if out_deadline_exceeded o then
    ret ("", Some (errors_New "command execution timed out"))
  else
    match out_err o with
    | Some e =>
        ret ("", Some ("failed to execute command: " +++ command
                       +++ ", error: " +++ e))
    | None => ret (out_bytes o, None)
    end.

(** *** analyze (main.go, lines 248-321)

    The [for] statement of lines 293-318 leaves through [break] on each
    of its paths, so its body runs at most once: it is an [if] on the
    loop condition.  The recursive call is at [depth + 1] and is made
    only below [maxFollowups], which is what the definition recurses on. *)

Equations? analyze (prompt command : string) (depth : Z)
  : M W (AnalysisItem * option error)
  by wf (levels_left depth) lt :=
analyze prompt command depth :=
  let item := mkAnalysisItem prompt command false "" "" "" [] in
  (* If no command, don't do anything *)
  if String.eqb command "" then
    let item := set_Flagged false item in
    let item := set_AnalysisDescription "No command provided" item in
    ret (item, None)
  else
    ind <- lift (indent depth) ;;
    Printf (ind +++ "Executing command: " +++ command +++ nl) ;;;
    '(commandOutput, err) <- executeCommand command ;;
    match err with
    | Some e =>
        let item := set_Flagged false item in
        let item := set_AnalysisDescription
                      ("Command execution error: " +++ e) item in
        let item := set_RawOutput commandOutput item in
        ret (item, None)
    | None =>
        (* Truncate and prepare for analysis *)
        truncatedOutput <- lift (truncateOutput commandOutput maxOutputCharacters) ;;
        let fullPrompt := fullPrompt command truncatedOutput in
        (* Analyze with OpenAI *)
        '(response, err) <- callOpenAI fullPrompt ;;
        match err with
        | Some e =>
            let item := set_Flagged false item in
            let item := set_AnalysisDescription
                          ("OpenAI API error: " +++ e) item in
            let item := set_RawOutput truncatedOutput item in
            ret (item, None)
        | None =>
            (* Set item fields from response *)
            let item := set_Flagged (resp_Flagged response) item in
            let item := set_AnalysisDescription (resp_Description response) item in
            let item := set_Alert (resp_Alert response) item in
            let item := set_RawOutput truncatedOutput item in
            (* Handle multiple follow-ups if suggested *)
            let currentResponse := response in
            let currentDepth := depth in
            if Flagged item
               && negb (String.eqb (FollowUpCommand currentResponse) "")
               && negb (String.eqb (FollowUpPrompt currentResponse) "")
            then
              match Z_lt_dec currentDepth maxFollowups with
              | left _ =>
                  let currentDepth := currentDepth + 1 in
                  ind <- lift (indent currentDepth) ;;
                  Printf (ind +++ "Executing follow-up command: "
                          +++ FollowUpCommand currentResponse +++ nl) ;;;
                  '(followupItem, err) <-
                     analyze (FollowUpPrompt currentResponse)
                             (FollowUpCommand currentResponse) currentDepth ;;
                  match err with
                  | Some _ => ret (item, None)  (* break *)
                  | None =>
                      (* Append the follow-up result; break either way *)
                      let item := set_FollowUps
                                    (FollowUps item ++ [followupItem]) item in
                      ret (item, None)
                  end
              | right _ => ret (item, None)
              end
            else ret (item, None)
        end
    end.
Proof.
  unfold levels_left, maxFollowups in *. lia.
Qed.

(** *** The check loop of main (main.go, lines 343-354)

    [results] starts empty and grows by [append]; a check whose analysis
    returned an error would be reported on standard output and skipped. *)

Fixpoint main_loop (cs : list Check) (results : list AnalysisItem)
  : M W (list AnalysisItem) :=
  match cs with
  | [] => ret results
  | chk :: rest =>
      '(item, err) <- analyze (chk_Prompt chk) (chk_Command chk) 0 ;;
      match err with
      | Some e =>
          Printf ("Error analyzing command " +++ chk_Command chk
                  +++ ": " +++ e +++ nl) ;;;
          main_loop rest results                       (* continue *)
      | None => main_loop rest (results ++ [item])
      end
  end.

Definition main_report (cs : list Check) : M W Report :=
  results <- main_loop cs [] ;;
  ret (mkReport results).

(** *** Assumptions on the outside and on the depth *)

(** The chat-completion service answers a request that did not fail with
    at least one choice. *)
Definition choices_present : Prop :=
  forall req w resp w',
    CreateChatCompletion req w = (resp, None, w') -> Choices resp <> [].

(** The depths whose indentation [strings.Repeat] can build. *)
Definition depth_ok (depth : Z) : Prop := 0 <= depth <= maxInt / 2.

(** *** The part of analyze before the recursive call

    Lines 250-295 as a computation of their own: the item as it stands
    before any follow-up, and the follow-up (prompt, command) when the
    loop condition of line 293 holds.  [analyze_unfold] below shows that
    [analyze] is this followed by the recursive call; the proofs use it
    to reason about one level at a time. *)

Definition analyze_head (prompt command : string) (depth : Z)
  : M W (AnalysisItem * option (string * string)) :=
  let item := mkAnalysisItem prompt command false "" "" "" [] in
  if String.eqb command "" then
    ret (set_AnalysisDescription "No command provided"
           (set_Flagged false item), None)
  else
    ind <- lift (indent depth) ;;
    Printf (ind +++ "Executing command: " +++ command +++ nl) ;;;
    '(commandOutput, err) <- executeCommand command ;;
    match err with
    | Some e =>
        ret (set_RawOutput commandOutput
               (set_AnalysisDescription ("Command execution error: " +++ e)
                  (set_Flagged false item)), None)
    | None =>
        truncatedOutput <- lift (truncateOutput commandOutput maxOutputCharacters) ;;
        '(response, err) <- callOpenAI (fullPrompt command truncatedOutput) ;;
        match err with
        | Some e =>
            ret (set_RawOutput truncatedOutput
                   (set_AnalysisDescription ("OpenAI API error: " +++ e)
                      (set_Flagged false item)), None)
        | None =>
            let item :=
              set_RawOutput truncatedOutput
                (set_Alert (resp_Alert response)
                   (set_AnalysisDescription (resp_Description response)
                      (set_Flagged (resp_Flagged response) item))) in
            if Flagged item
               && negb (String.eqb (FollowUpCommand response) "")
               && negb (String.eqb (FollowUpPrompt response) "")
            then
              match Z_lt_dec depth maxFollowups with
              | left _ =>
                  ind <- lift (indent (depth + 1)) ;;
                  Printf (ind +++ "Executing follow-up command: "
                          +++ FollowUpCommand response +++ nl) ;;;
                  ret (item, Some (FollowUpPrompt response,
                                   FollowUpCommand response))
              | right _ => ret (item, None)
              end
            else ret (item, None)
        end
    end.

(** What analyze does with the item of [analyze_head]: lines 296-320. *)
Definition analyze_tail (item : AnalysisItem) (next : option (string * string))
           (depth : Z) : M W (AnalysisItem * option error) :=
  match next with
  | None => ret (item, None)
  | Some (followPrompt, followCommand) =>
      '(followupItem, err) <- analyze followPrompt followCommand (depth + 1) ;;
      match err with
      | Some _ => ret (item, None)
      | None => ret (set_FollowUps (FollowUps item ++ [followupItem]) item, None)
      end
  end.

End Engine.

(** ** The catalog (main.go, lines 62-162) *)

Definition checks_MacOS : list Check := [
  mkCheck ("system_profiler SPUSBDataType -json | jq '.SPUSBDataType[] | select(."
           +++ dq +++ "_name" +++ dq +++ " | test(" +++ dq
           +++ "keyboard|mouse|storage|hub" +++ dq +++ "; " +++ dq +++ "i"
           +++ dq +++ "))'")
          "Look for any suspicious USB devices, filtering for specific device types.";
  mkCheck "ps -Ao user,pid,%cpu,%mem,comm --sort=-%cpu | head -n 20"
          "Analyze top processes for unusual CPU or memory usage.";
  mkCheck "netstat -an | grep -E 'ESTABLISHED|LISTEN' | awk '{print $4,$5,$6}' | uniq -c | sort -nr | head -n 20"
          "Identify top suspicious or unusual network connections.";
  mkCheck "last | head -n 20"
          "Review the most recent login history for any unusual user activity.";
  mkCheck "dscl . list /Users | grep -vE '^_.*|daemon|nobody|root'"
          "Check for unexpected or unauthorized user accounts, excluding system defaults.";
  mkCheck "pmset -g log | grep -i failure | tail -n 10"
          "Check the last 10 power management failures or unexpected events.";
  mkCheck "dmesg | tail -n 20"
          "Analyze the last 20 kernel messages for potential issues.";
  mkCheck "ls -lh /Users/Shared | grep -v '^d' | sort -k5,5nr | head -n 10"
          "Check the largest or most recently modified suspicious files in the shared user directory.";
  mkCheck "launchctl list | grep -vE 'com.apple|system' | head -n 20"
          "Check non-system running services/daemons for suspicious entries.";
  mkCheck "crontab -l | grep -E 'wget|curl|bash|sh' | tail -n 10"
          "Check for potentially suspicious cron jobs.";
  mkCheck "fdesetup status"
          "Check if FileVault disk encryption is enabled or disabled.";
  mkCheck "kextstat | grep -v com.apple"
          "Examine loaded kernel extensions for anything unusual, excluding Apple-signed extensions.";
  mkCheck "launchctl list | grep -vE 'com.apple|system'"
          "Check for non-Apple launch services that might be malicious.";
  mkCheck "defaults read /Library/Preferences/com.apple.loginwindow | grep -vE 'default values|empty'"
          "Inspect login window preferences for suspicious settings, filtering irrelevant defaults.";
  mkCheck "mdutil -s / | grep -iE 'enabled|disabled'"
          "Check Spotlight indexing status; unexpected changes could indicate tampering.";
  mkCheck "lsof -i | grep -E 'LISTEN|ESTABLISHED'"
          "Review open files and network connections for suspicious activity, focusing on active connections.";
  mkCheck "ls -la /etc/sudoers.d | grep -v '^total'"
          "Check for unauthorized sudoers modifications, ignoring summary lines.";
  mkCheck "fdesetup status"
          "Check if FileVault disk encryption is enabled or disabled.";
  mkCheck "kextstat | grep -v com.apple"
          "Examine loaded kernel extensions for anything unusual, excluding Apple-signed extensions.";
  mkCheck "launchctl list | grep -vE 'com.apple|system'"
          "Check for non-Apple launch services that might be malicious.";
  mkCheck "defaults read /Library/Preferences/com.apple.loginwindow | grep -vE 'default values|empty'"
          "Inspect login window preferences for suspicious settings, filtering irrelevant defaults.";
  mkCheck "mdutil -s / | grep -iE 'enabled|disabled'"
          "Check Spotlight indexing status; unexpected changes could indicate tampering.";
  mkCheck "lsof -i | grep -E 'LISTEN|ESTABLISHED'"
          "Review open files and network connections for suspicious activity, focusing on active connections.";
  mkCheck "ls -la /etc/sudoers.d | grep -v '^total'"
          "Check for unauthorized sudoers modifications, ignoring summary lines."
].

(** ** Test doubles

    A runner and an oracle to run the engine on: the state of the outside
    is the number of oracle calls made so far. *)

Module Stub.

Definition World : Type := nat.

(** The runner: [sleep 60] runs into the deadline with some output already
    written, [false] exits with status 1, any other command prints a line. *)
Definition runner (command : string) (w : World) : CmdOutcome * World :=
  if String.eqb command "sleep 60" then
    (mkCmdOutcome "partial output" (Some "signal: killed") true, w)
  else if String.eqb command "false" then
    (mkCmdOutcome "" (Some "exit status 1") false, w)
  else
    (mkCmdOutcome ("output of " +++ command +++ nl) None false, w).

(** Replies, by the text of the single choice they carry. *)
Definition reply_flag : string := "FLAG".
Definition reply_clear : string := "CLEAR".

(** The decoder: the two replies above stand for the verdicts of the
    end-to-end scenarios, anything else does not parse. *)
Definition decode (content : string) : GPTResponse * option error :=
  if String.eqb content reply_flag then
    (mkGPTResponse true "susp" "deeper" "echo f" "", None)
  else if String.eqb content reply_clear then
    (mkGPTResponse false "clear" "" "" "", None)
  else (GPTResponse_zero, Some "invalid character").

(** An oracle that gives the same reply to every request. *)
Definition oracle_always (content : string)
  (req : ChatCompletionRequest) (w : World)
  : (ChatCompletionResponse * option error) * World :=
  (mkResponse [content], None, S w).

(** An oracle that plays a script, one reply per call, and fails with a
    transport error once the script is over. *)
Definition oracle_script (script : list string)
  (req : ChatCompletionRequest) (w : World)
  : (ChatCompletionResponse * option error) * World :=
  match nth_error script w with
  | Some content => (mkResponse [content], None, S w)
  | None => (mkResponse [], Some "connection refused", S w)
  end.

(** An oracle that answers without any choice. *)
Definition oracle_no_choice (req : ChatCompletionRequest) (w : World)
  : (ChatCompletionResponse * option error) * World :=
  (mkResponse [], None, S w).

End Stub.

(** ** The context prompt as the spec words it *)

(** The context prompt the spec describes: the check prompt with the
    truncated output, laid out as [fullPrompt] lays out the command. *)
Definition spec_context_prompt (prompt truncatedOutput : string) : string :=
  prompt +++ nl +++ nl +++ "Command output (truncated):" +++ nl
  +++ truncatedOutput.

(** The strings made of spaces only. *)
Fixpoint all_spaces (s : string) : bool :=
  match s with
  | EmptyString => true
  | String ch rest => Ascii.eqb ch " "%char && all_spaces rest
  end.

(** ** The loop condition of analyze (main.go, line 293)

    [item.Flagged] is the verdict's [flagged] at that point, and
    [currentDepth] is [depth]. *)

Definition recursion_gate (response : GPTResponse) (depth : Z) : bool :=
  resp_Flagged response
  && negb (String.eqb (FollowUpCommand response) "")
  && negb (String.eqb (FollowUpPrompt response) "")
  && (depth <? maxFollowups).

(** An item with another prompt, and an outcome of analyze with another
    prompt in its root item: what a call with that prompt is compared to. *)
Definition set_Prompt (v : string) (i : AnalysisItem) : AnalysisItem :=
  mkAnalysisItem v (Command i) (Flagged i) (AnalysisDescription i) (Alert i)
                 (RawOutput i) (FollowUps i).

Definition with_root_prompt {W : Type} (v : string)
  (run : Res (AnalysisItem * option error) * W * list Event)
  : Res (AnalysisItem * option error) * W * list Event :=
  let '(r, w, ev) := run in
  (match r with
   | Ret (item, err) => Ret (set_Prompt v item, err)
   | Panic msg => Panic msg
   end, w, ev).

(** The command line [sh -c command] of a node, and whether a node has a
    command at all. *)
Definition argv_of (i : AnalysisItem) : list string := ["sh"; "-c"; Command i].
Definition has_command (i : AnalysisItem) : bool :=
  negb (String.eqb (Command i) "").

(** ** Package db and main (the db listing, and main.go, lines 328-368)

    Besides the engine, main reads the environment, opens the log store,
    and hands the report to the log store and to a file.  The handle that
    [gorm.Open] returns is kept in the package variable [DB]; the state of
    the program is the state of the outside and that variable. *)

(** [db.Log], by the two fields the program sets. *)
Record Log : Type := mkLog {
  log_Date : string;
  log_Content : string
}.

Inductive MainEvent : Type :=
| Engine (e : Event)                                (* an event of the engine, or a print *)
| EvGetenv (name : string)                          (* os.Getenv *)
| EvOpen (dsn : string)                             (* gorm.Open(sqlite.Open(dsn), ...) *)
| EvAutoMigrate                                     (* DB.AutoMigrate(&Log{}) *)
| EvCreate (log : Log)                              (* DB.Create(&log) *)
| EvWriteFile (name data : string) (perm : Z).      (* os.WriteFile *)

(** The writes to the two sinks, in order. *)
Definition sink_events (evs : list MainEvent) : list MainEvent :=
  filter (fun e => match e with
                   | EvCreate _ | EvWriteFile _ _ _ => true
                   | _ => false
                   end) evs.

(** The events of the engine among the events of main. *)
Definition engine_events (evs : list MainEvent) : list Event :=
  flat_map (fun e => match e with Engine e' => [e'] | _ => [] end) evs.

(** Every call to the outside other than a print. *)
Definition outside_calls (evs : list MainEvent) : list MainEvent :=
  filter (fun e => match e with
                   | Engine (Stdout _) => false
                   | _ => true
                   end) evs.

Section Program.

Variable W : Type.
Variable GOOS : string.
Variable CombinedOutput : string -> W -> CmdOutcome * W.

(** [openai.NewClient(apiKey)], by what its [CreateChatCompletion] does. *)
Variable NewClient :
  string -> ChatCompletionRequest -> W
  -> (ChatCompletionResponse * option error) * W.
Variable json_Unmarshal : string -> GPTResponse * option error.

(** [os.Getenv] *)
Variable Getenv : string -> W -> string * W.

(** [*gorm.DB], and the three calls made on gorm: [gorm.Open] returns a
    handle (or nil) and an error. *)
Variable Handle : Type.
Variable gorm_Open : string -> W -> (option Handle * option error) * W.
Variable AutoMigrate : Handle -> W -> option error * W.
Variable DB_Create : Handle -> Log -> W -> option error * W.

(** [time.Time], [time.Now] and [Time.Format]. *)
Variable Time : Type.
Variable time_Now : W -> Time * W.
Variable time_Format : Time -> string -> string.

(** [json.MarshalIndent(report, prefix, indent)]: the bytes, or an error
    and no bytes. *)
Variable json_MarshalIndent : Report -> string -> string -> string + error.

(** [os.WriteFile(name, data, perm)] *)
Variable os_WriteFile : string -> string -> Z -> W -> option error * W.

(** The state of the program: the outside, and the package variable
    [db.DB] ([None] is nil). *)
Record ProgState : Type := mkProgState {
  outside : W;
  DB : option Handle
}.

Definition Prog (A : Type) : Type :=
  ProgState -> Res A * ProgState * list MainEvent.

Definition pret {A} (a : A) : Prog A := fun s => (Ret a, s, []).

Definition pbind {A B} (m : Prog A) (k : A -> Prog B) : Prog B :=
  fun s =>
    match m s with
    | (Ret a, s1, e1) => let '(r, s2, e2) := k a s1 in (r, s2, e1 ++ e2)
    | (Panic msg, s1, e1) => (Panic msg, s1, e1)
    end.

Notation "x <~ m ;; k" := (pbind m (fun x => k))
  (at level 61, m at next level, right associativity).
Notation "m ;;~ k" := (pbind m (fun _ => k))
  (at level 61, right associativity).

(** A call to the outside, recorded by its events. *)
Definition call {A} (f : W -> A * W) (evs : list MainEvent) : Prog A :=
  fun s => let '(a, w') := f (outside s) in
           (Ret a, mkProgState w' (DB s), evs).

(** A computation of the engine inside the program. *)
Definition engine {A} (m : M W A) : Prog A :=
  fun s => let '(r, w', ev) := m (outside s) in
           (r, mkProgState w' (DB s), map Engine ev).

(** [fmt.Println] and [fmt.Printf] of main, on an already formatted text. *)
Definition print (text : string) : Prog unit :=
  fun s => (Ret tt, s, [Engine (Stdout text)]).

(** A method call on [DB]: a nil receiver panics. *)
Definition on_DB {A} (f : Handle -> Prog A) : Prog A :=
  fun s =>
    match DB s with
    | Some h => f h s
    | None =>
        (Panic "runtime error: invalid memory address or nil pointer dereference",
         s, [])
    end.

(** *** db.InitDB *)

Definition InitDB : Prog (option error) :=
  (* DB, err = gorm.Open(sqlite.Open("test.db"), &gorm.Config{}) *)
  err <~ (fun s => let '(h, err, w') := gorm_Open "test.db" (outside s) in
                   (Ret err, mkProgState w' h, [EvOpen "test.db"])) ;;
  match err with
  | Some e => pret (Some e)
  | None =>
      err <~ on_DB (fun h => call (AutoMigrate h) [EvAutoMigrate]) ;;
      match err with
      | Some e => pret (Some e)
      | None => pret None
      end
  end.

(** *** db.CreateLog *)

Definition CreateLog (date : Time) (content : string) : Prog (option error) :=
  let log := mkLog (time_Format date "2006-01-02 15:04:05") content in
  (* result := DB.Create(&log); return result.Error *)
  on_DB (fun h => call (DB_Create h log) [EvCreate log]).

(** *** main (main.go, lines 328-368)

    The permission [0644] is octal: 420. *)

Definition main : Prog unit :=
  apiKey <~ call (Getenv "OPENAI_API_KEY") [EvGetenv "OPENAI_API_KEY"] ;;
  if String.eqb apiKey "" then
    print ("OpenAI API key is not set" +++ nl)
  else
    err <~ InitDB ;;
    match err with
    | Some e => print ("Error initializing database: " +++ e +++ nl)
    | None =>
        let client := NewClient apiKey in
        (* Analyze each check and store results *)
        report <~ engine (main_report W GOOS CombinedOutput client
                                      json_Unmarshal checks_MacOS) ;;
        let '(reportString, err) :=
          match json_MarshalIndent report "" "  " with
          | inl bytes => (bytes, None)
          | inr e => ("", Some e)
          end in
        match err with
        | Some e => print ("Error marshalling report: " +++ e +++ nl)
        | None => pret tt
        end ;;~
        now <~ call time_Now [] ;;
        CreateLog now reportString ;;~
        (* save the report to a file report.json *)
        err <~ call (os_WriteFile "report.json" reportString 420)
                    [EvWriteFile "report.json" reportString 420] ;;
        match err with
        | Some e => print ("Error writing report to file: " +++ e +++ nl)
        | None => pret tt
        end
    end.

End Program.

(** Test doubles for the rest of the program: an environment with or
    without the key, a log store that opens or not, a clock, a renderer
    of reports and a file system. *)

Module StubProgram.

Definition Handle : Type := unit.
Definition Time : Type := nat.

Definition getenv_with_key (name : string) (w : Stub.World) : string * Stub.World :=
  (if String.eqb name "OPENAI_API_KEY" then "sk-test" else "", w).

Definition getenv_empty (name : string) (w : Stub.World) : string * Stub.World :=
  ("", w).

Definition open_ok (dsn : string) (w : Stub.World)
  : (option Handle * option error) * Stub.World :=
  (Some tt, None, w).

Definition open_fails (dsn : string) (w : Stub.World)
  : (option Handle * option error) * Stub.World :=
  (None, Some "unable to open database file", w).

Definition migrate_ok (h : Handle) (w : Stub.World) : option error * Stub.World :=
  (None, w).

Definition create_fails (h : Handle) (log : Log) (w : Stub.World)
  : option error * Stub.World :=
  (Some "database is locked", w).

Definition now (w : Stub.World) : Time * Stub.World := (w, w).

Definition format (t : Time) (layout : string) : string := "2024-12-18 19:06:24".

(** A renderer that lists the commands of the root items. *)
Definition render (report : Report) (prefix indent : string) : string + error :=
  inl (String.concat ";" (map Command (Items report))).

Definition render_fails (report : Report) (prefix indent : string)
  : string + error :=
  inr "json: unsupported value".

Definition write_fails (name data : string) (perm : Z) (w : Stub.World)
  : option error * Stub.World :=
  (Some "permission denied", w).

(** A client whose oracle clears every check, whatever the key. *)
Definition client_clear (apiKey : string) := Stub.oracle_always Stub.reply_clear.

End StubProgram.

(** * Proofs *)

(** ** Facts about byte strings *)

Lemma substring_0_length (s : string) (n : nat) :
  String.length (substring 0 n s) = Nat.min n (String.length s).
Proof.
  revert n; induction s as [|c s IH]; intros [|n]; simpl; auto.
Qed.

Lemma substring_0_prefix (s : string) (n : nat) :
  prefix (substring 0 n s) s = true.
Proof.
  revert n; induction s as [|c s IH]; intros [|n]; simpl; auto.
  destruct (ascii_dec c c) as [_|ne]; [apply IH | now elim ne].
Qed.

Lemma prefix_refl (s : string) : prefix s s = true.
Proof.
  induction s as [|c s IH]; simpl; auto.
  destruct (ascii_dec c c) as [_|ne]; [apply IH | now elim ne].
Qed.

(** truncateOutput with a bound that is not negative: the string itself when
    it fits, its first [maxLen] bytes when it does not. *)
Lemma truncateOutput_cases (s : string) (maxLen : Z) :
  0 <= maxLen ->
  (len s <= maxLen /\ truncateOutput s maxLen = Ret s)
  \/ (maxLen < len s
      /\ truncateOutput s maxLen = Ret (substring 0 (Z.to_nat maxLen) s)).
Proof.
  intros Hm. unfold truncateOutput, slice_to.
  destruct (len s >? maxLen) eqn:Hgt.
  - apply Z.gtb_lt in Hgt. right. split; [exact Hgt|].
    replace (maxLen <? 0) with false by (symmetry; apply Z.ltb_ge; lia).
    replace (len s <? maxLen) with false by (symmetry; apply Z.ltb_ge; lia).
    reflexivity.
  - left. split; [|reflexivity].
    rewrite Z.gtb_ltb in Hgt. apply Z.ltb_ge in Hgt. exact Hgt.
Qed.

Lemma truncateOutput_returns (s : string) (maxLen : Z) :
  0 <= maxLen -> exists t, truncateOutput s maxLen = Ret t.
Proof.
  intros Hm. destruct (truncateOutput_cases s maxLen Hm) as [[_ E]|[_ E]]; eauto.
Qed.

Lemma truncateOutput_le (s t : string) (maxLen : Z) :
  0 <= maxLen -> truncateOutput s maxLen = Ret t -> len t <= maxLen.
Proof.
  intros Hm Ht.
  destruct (truncateOutput_cases s maxLen Hm) as [[L E]|[L E]];
    rewrite E in Ht; injection Ht as <-; [exact L|].
  unfold len in *. rewrite substring_0_length. lia.
Qed.

Lemma indent_ok (depth : Z) :
  0 <= depth <= maxInt / 2 -> exists ind, indent depth = Ret ind.
Proof.
  intros H. unfold indent, strings_Repeat.
  destruct (depth =? 0); [eauto|]. destruct (depth =? 1); [eauto|].
  replace (depth <? 0) with false by (symmetry; apply Z.ltb_ge; lia).
  replace (maxInt <? len "  " * depth) with false; [eauto|].
  symmetry; apply Z.ltb_ge. change (len "  ") with 2.
  assert (2 * (maxInt / 2) <= maxInt)
    by (apply Z.mul_div_le; reflexivity).
  lia.
Qed.

Lemma levels_depth_ok (depth : Z) :
  0 <= depth <= maxFollowups -> 0 <= depth <= maxInt / 2.
Proof.
  intros H. split; [lia|]. transitivity maxFollowups; [lia | now vm_compute].
Qed.

(** ** The measure of the recursion *)

Lemma levels_left_succ (depth : Z) :
  depth < maxFollowups -> (levels_left (depth + 1) < levels_left depth)%nat.
Proof. unfold levels_left; lia. Qed.

(** ** Facts about result trees *)

Lemma nodes_leaf (i : AnalysisItem) : FollowUps i = [] -> nodes i = [i].
Proof. destruct i; cbn; intros ->; reflexivity. Qed.

Lemma height_leaf (i : AnalysisItem) : FollowUps i = [] -> height i = O.
Proof. destruct i; cbn; intros ->; reflexivity. Qed.

Lemma nodes_one_follow_up (i child : AnalysisItem) :
  nodes (set_FollowUps [child] i) = set_FollowUps [child] i :: nodes child.
Proof. cbn. now rewrite app_nil_r. Qed.

Lemma height_one_follow_up (i child : AnalysisItem) :
  height (set_FollowUps [child] i) = S (height child).
Proof. cbn. now rewrite Nat.max_0_r. Qed.

(** Splits a conjunction of facts about a built item and settles the parts
    that hold by computation. *)
Ltac item_facts :=
  cbn;
  repeat match goal with |- _ /\ _ => split end;
  try reflexivity; try assumption; try (cbn; lia);
  try (intros ? ? ?; discriminate).

(** ** One level of the engine *)

Section EngineFacts.

Variable W : Type.
Variable GOOS : string.
Variable CombinedOutput : string -> W -> CmdOutcome * W.
Variable CreateChatCompletion :
  ChatCompletionRequest -> W -> (ChatCompletionResponse * option error) * W.
Variable json_Unmarshal : string -> GPTResponse * option error.

Abbreviation executeCommand := (executeCommand W CombinedOutput).
Abbreviation callOpenAI := (callOpenAI W GOOS CreateChatCompletion json_Unmarshal).
Abbreviation analyze :=
  (analyze W GOOS CombinedOutput CreateChatCompletion json_Unmarshal).
Abbreviation analyze_head :=
  (analyze_head W GOOS CombinedOutput CreateChatCompletion json_Unmarshal).
Abbreviation analyze_tail :=
  (analyze_tail W GOOS CombinedOutput CreateChatCompletion json_Unmarshal).
Abbreviation main_loop :=
  (main_loop W GOOS CombinedOutput CreateChatCompletion json_Unmarshal).
Abbreviation main_report :=
  (main_report W GOOS CombinedOutput CreateChatCompletion json_Unmarshal).
Abbreviation choices_present := (choices_present W CreateChatCompletion).

(** executeCommand never panics, and hands back no output with an error. *)
Lemma executeCommand_cases (command : string) (w : W) :
  exists out err w1,
    executeCommand command w
    = (Ret (out, err), w1, [Exec ["sh"; "-c"; command] commandTimeout])
    /\ w1 = snd (CombinedOutput command w)
    /\ (err <> None -> out = "").
Proof.
  unfold executeCommand, bind, ret.
  destruct (CombinedOutput command w) as [o w1]; simpl.
  destruct (out_deadline_exceeded o).
  - do 3 eexists; split; [reflexivity|]; split; auto.
  - destruct (out_err o).
    + do 3 eexists; split; [reflexivity|]; split; auto.
    + do 3 eexists; split; [reflexivity|]; split; auto. congruence.
Qed.

(** callOpenAI makes one request; it panics only on an answer without
    choices. *)
Lemma callOpenAI_cases (prompt : string) (w : W) :
  exists r w1 req,
    callOpenAI prompt w = (r, w1, [ChatCompletion req])
    /\ user_content req = [prompt]
    /\ (choices_present -> exists v err, r = Ret (v, err)).
Proof.
  unfold callOpenAI, bind, ret, lift.
  set (req := chatRequest _ _).
  destruct (CreateChatCompletion req w) as [[resp err] w1] eqn:E.
  destruct err as [e|].
  - do 3 eexists; split; [reflexivity|]; split; [reflexivity|]. eauto.
  - destruct (Choices resp) as [|c cs] eqn:Ec.
    + do 3 eexists; split; [reflexivity|]; split; [reflexivity|].
      intros Hc. elim (Hc _ _ _ _ E Ec).
    + destruct (json_Unmarshal c) as [v [e|]];
        do 3 eexists; (split; [reflexivity|]; split; [reflexivity|]); eauto.
Qed.

(** analyze is its head followed by its tail. *)
Lemma analyze_split (p c : string) (d : Z) (w : W) :
  analyze p c d w
  = bind (analyze_head p c d)
         (fun x => analyze_tail (fst x) (snd x) d) w.
Proof.
  rewrite analyze_equation_1. unfold analyze_head, analyze_tail.
  cbv beta zeta.
  destruct (String.eqb c ""); [reflexivity|].
  unfold bind, lift, Printf, ret.
  destruct (indent d); [|reflexivity].
  destruct (executeCommand c w) as [[[[out [e|]]|] w1] ev1];
    try (cbn; rewrite ?app_nil_r; reflexivity).
  destruct (truncateOutput out maxOutputCharacters); [|reflexivity].
  destruct (callOpenAI _ w1) as [[[[v [e|]]|] w2] ev2];
    try (cbn; rewrite ?app_nil_r; reflexivity).
  destruct (_ && _ && _); [|cbn; rewrite ?app_nil_r; reflexivity].
  destruct (Z_lt_dec d maxFollowups); [|cbn; rewrite ?app_nil_r; reflexivity].
  destruct (indent (d + 1)); [|reflexivity].
  cbn.
  destruct (analyze _ _ _ w2) as [[[[ch [e|]]|] w3] ev3];
    cbn; rewrite ?app_nil_r, <- ?app_assoc; reflexivity.
Qed.

(** What the head leaves behind when it returns. *)
Lemma analyze_head_item (p c : string) (d : Z) (w : W) item next w1 ev :
  analyze_head p c d w = (Ret (item, next), w1, ev) ->
  Prompt item = p /\ Command item = c /\ FollowUps item = []
  /\ len (RawOutput item) <= maxOutputCharacters
  /\ (forall fp fc, next = Some (fp, fc) ->
        d < maxFollowups /\ fc <> "" /\ fp <> ""
        /\ Flagged item = true).
Proof.
  unfold analyze_head. cbv beta zeta.
  destruct (String.eqb c "") eqn:Ec.
  { intros H; injection H as <- <- <- <-. now item_facts. }
  unfold bind, lift, Printf, ret.
  destruct (indent d) as [ind|] eqn:Ei; [|discriminate].
  destruct (executeCommand_cases c w) as (out & err & w1' & -> & _ & Hout).
  destruct err as [e|].
  { intros H; injection H as <- <- <- <-. rewrite Hout by discriminate.
    now item_facts. }
  destruct (truncateOutput out maxOutputCharacters) as [t|] eqn:Et; [|discriminate].
  apply truncateOutput_le in Et; [|unfold maxOutputCharacters; lia].
  destruct (callOpenAI _ w1') as [[[[v [e|]]|] w2] ev2]; try discriminate.
  { intros H; injection H as <- <- <- <-. now item_facts. }
  destruct (_ && _ && _) eqn:Eg.
  2:{ intros H; injection H as <- <- <- <-. now item_facts. }
  apply andb_prop in Eg as [Eg Eg3]. apply andb_prop in Eg as [Eg1 Eg2].
  apply negb_true_iff, String.eqb_neq in Eg2, Eg3.
  destruct (Z_lt_dec d maxFollowups) as [Hlt|].
  2:{ intros H; injection H as <- <- <- <-. now item_facts. }
  destruct (indent (d + 1)) as [ind'|]; [|discriminate].
  cbn. intros H; injection H as <- <- <- <-. item_facts.
  intros fp fc H; injection H as <- <-. auto.
Qed.

(** The head returns unless the oracle answers without a choice or the
    depth cannot be indented. *)
Lemma analyze_head_returns (p c : string) (d : Z) (w : W) :
  choices_present -> depth_ok d ->
  exists item next w1 ev, analyze_head p c d w = (Ret (item, next), w1, ev).
Proof.
  intros Hc Hd. unfold analyze_head. cbv beta zeta.
  destruct (String.eqb c ""); [unfold ret; eauto|].
  unfold bind, lift, Printf, ret.
  destruct (indent_ok d Hd) as (ind & ->).
  destruct (executeCommand_cases c w) as (out & err & w1 & -> & _ & _).
  destruct err as [e|]; [cbn; eauto|].
  destruct (truncateOutput_returns out maxOutputCharacters) as (t & ->);
    [unfold maxOutputCharacters; lia|].
  destruct (callOpenAI_cases (fullPrompt c t) w1)
    as (r & w2 & req & E & _ & Hr).
  rewrite E. destruct (Hr Hc) as (v & err & ->).
  destruct err as [e|]; [cbn; eauto|].
  destruct (_ && _ && _); [|cbn; eauto].
  destruct (Z_lt_dec d maxFollowups) as [Hlt|]; [|cbn; eauto].
  destruct (indent_ok (d + 1)) as (ind' & ->); [|cbn; eauto].
  unfold depth_ok, maxFollowups in *. split; [lia|].
  transitivity 5; [lia | now vm_compute].
Qed.

(** The head runs at most one command and asks the oracle at most once. *)
Lemma analyze_head_events (p c : string) (d : Z) (w : W) r w1 ev :
  analyze_head p c d w = (r, w1, ev) ->
  (length (executed_commands ev) <= 1)%nat
  /\ (length (oracle_prompts ev) <= 1)%nat.
Proof.
  unfold analyze_head. cbv beta zeta.
  destruct (String.eqb c "").
  { intros H; injection H as <- <- <-. cbn; lia. }
  unfold bind, lift, Printf, ret.
  destruct (indent d) as [ind|].
  2:{ intros H; injection H as <- <- <-. cbn; lia. }
  destruct (executeCommand_cases c w) as (out & err & w1' & -> & _ & _).
  destruct err as [e|].
  { intros H; injection H as <- <- <-. cbn; lia. }
  destruct (truncateOutput out maxOutputCharacters) as [t|].
  2:{ intros H; injection H as <- <- <-. cbn; lia. }
  match goal with |- context [callOpenAI ?q w1'] =>
    destruct (callOpenAI_cases q w1') as (r2 & w2 & req & -> & Hu & _) end.
  destruct r2 as [[v [e|]]|];
    [ | destruct (_ && _ && _); [destruct (Z_lt_dec d maxFollowups);
                                  [destruct (indent (d + 1))|]|] | ];
    intros H; injection H as <- <- <-;
    unfold oracle_prompts, executed_commands; cbn [app flat_map];
    rewrite Hu; cbn; lia.
Qed.

(** ** The whole tree *)

Lemma executed_commands_app (e1 e2 : list Event) :
  executed_commands (e1 ++ e2) = executed_commands e1 ++ executed_commands e2.
Proof. unfold executed_commands. apply flat_map_app. Qed.

Lemma oracle_prompts_app (e1 e2 : list Event) :
  oracle_prompts (e1 ++ e2) = oracle_prompts e1 ++ oracle_prompts e2.
Proof. unfold oracle_prompts. apply flat_map_app. Qed.

(** Every item analyze returns, with the invariants of its tree: no error
    beside it, the arguments kept, at most one follow-up per node, bounded
    raw output, no more levels than the depth leaves, and no more commands
    run or verdicts asked than nodes built. *)
Lemma analyze_tree (n : nat) :
  forall p c d w item err w' ev,
    (levels_left d <= n)%nat ->
    analyze p c d w = (Ret (item, err), w', ev) ->
    err = None /\ Prompt item = p /\ Command item = c
    /\ Forall (fun x => (length (FollowUps x) <= 1)%nat) (nodes item)
    /\ Forall (fun x => len (RawOutput x) <= maxOutputCharacters) (nodes item)
    /\ (height item <= levels_left d)%nat
    /\ length (nodes item) = S (height item)
    /\ (length (executed_commands ev) <= length (nodes item))%nat
    /\ (length (oracle_prompts ev) <= length (nodes item))%nat.
Proof.
  induction n as [|n IH]; intros p c d w item err w' ev Hn;
    rewrite analyze_split; unfold bind;
    destruct (analyze_head p c d w) as [[[[item0 next]|] w1] ev1] eqn:Eh;
    try discriminate;
    destruct (analyze_head_item _ _ _ _ _ _ _ _ Eh) as (Hp & Hcm & Hf & Hr & Hnext);
    destruct (analyze_head_events _ _ _ _ _ _ _ Eh) as (Hx & Ho);
    cbn [fst snd]; (destruct next as [[fp fc]|];
      [ destruct (Hnext _ _ eq_refl) as (Hlt & _)
      | unfold analyze_tail, ret; intros H; injection H as <- <- <- <-;
        rewrite app_nil_r, (nodes_leaf _ Hf), (height_leaf _ Hf); cbn [length];
        repeat match goal with |- _ /\ _ => split end; auto; try lia;
        constructor; [first [exact Hr | rewrite Hf; cbn; lia] | constructor] ]).
  - exfalso. unfold levels_left, maxFollowups in *. lia.
  - unfold analyze_tail, bind, ret.
    destruct (analyze fp fc (d + 1) w1) as [[[[child cerr]|] w2] ev2] eqn:Ec;
      try discriminate.
    apply IH in Ec; [|pose proof (levels_left_succ d Hlt); lia].
    destruct Ec as (-> & _ & _ & Hc1 & Hc2 & Hc3 & Hc4 & Hc5 & Hc6).
    intros H; injection H as <- <- <- <-.
    rewrite app_nil_r, executed_commands_app, oracle_prompts_app, !length_app.
    rewrite Hf. cbn [app].
    rewrite nodes_one_follow_up, height_one_follow_up.
    pose proof (levels_left_succ d Hlt).
    repeat match goal with |- _ /\ _ => split end; auto;
      try (cbn [length]; lia).
Qed.

(** analyze returns at every depth that can be indented, as long as the
    oracle never answers without a choice. *)
Lemma analyze_returns (n : nat) :
  choices_present ->
  forall p c d w,
    (levels_left d <= n)%nat -> depth_ok d ->
    exists item w' ev, analyze p c d w = (Ret (item, None), w', ev).
Proof.
  intros Hc. induction n as [|n IH]; intros p c d w Hn Hd;
    rewrite analyze_split; unfold bind;
    destruct (analyze_head_returns p c d w Hc Hd) as (item0 & next & w1 & ev1 & Eh);
    rewrite Eh; cbn [fst snd];
    destruct (analyze_head_item _ _ _ _ _ _ _ _ Eh) as (_ & _ & _ & _ & Hnext);
    (destruct next as [[fp fc]|];
      [ destruct (Hnext _ _ eq_refl) as (Hlt & _)
      | unfold analyze_tail, ret; eauto ]).
  - exfalso. unfold levels_left, maxFollowups in *. lia.
  - unfold analyze_tail, bind, ret.
    destruct (IH fp fc (d + 1) w1) as (child & w2 & ev2 & ->).
    + pose proof (levels_left_succ d Hlt). lia.
    + unfold depth_ok, maxFollowups in *. split; [lia|].
      transitivity 5; [lia | now vm_compute].
    + eauto.
Qed.

(** ** The paths through one call *)

Lemma analyze_empty_command (p : string) (d : Z) (w : W) :
  analyze p "" d w
  = (Ret (mkAnalysisItem p "" false "No command provided" "" "" [], None), w, []).
Proof. rewrite analyze_equation_1. reflexivity. Qed.

Lemma analyze_indent_panic (p c : string) (d : Z) (w : W) msg :
  c <> "" -> indent d = Panic msg -> analyze p c d w = (Panic msg, w, []).
Proof.
  intros Hc Hi. rewrite analyze_equation_1. cbv beta zeta.
  rewrite (proj2 (String.eqb_neq _ _) Hc).
  unfold bind, lift. rewrite Hi. reflexivity.
Qed.

Lemma analyze_exec_failed (p c : string) (d : Z) (w : W) ind out e w1 ev1 :
  c <> "" -> indent d = Ret ind ->
  executeCommand c w = (Ret (out, Some e), w1, ev1) ->
  analyze p c d w
  = (Ret (mkAnalysisItem p c false ("Command execution error: " +++ e)
                         "" out [], None),
     w1, Stdout (ind +++ "Executing command: " +++ c +++ nl) :: ev1).
Proof.
  intros Hc Hi He. rewrite analyze_equation_1. cbv beta zeta.
  rewrite (proj2 (String.eqb_neq _ _) Hc).
  unfold bind, lift, Printf, ret. rewrite Hi, He. cbn.
  now rewrite app_nil_r.
Qed.

Lemma analyze_oracle_failed (p c : string) (d : Z) (w : W)
      ind out w1 ev1 t v e w2 ev2 :
  c <> "" -> indent d = Ret ind ->
  executeCommand c w = (Ret (out, None), w1, ev1) ->
  truncateOutput out maxOutputCharacters = Ret t ->
  callOpenAI (fullPrompt c t) w1 = (Ret (v, Some e), w2, ev2) ->
  analyze p c d w
  = (Ret (mkAnalysisItem p c false ("OpenAI API error: " +++ e) "" t [], None),
     w2, Stdout (ind +++ "Executing command: " +++ c +++ nl) :: ev1 ++ ev2).
Proof.
  intros Hc Hi He Ht Ho. rewrite analyze_equation_1. cbv beta zeta.
  rewrite (proj2 (String.eqb_neq _ _) Hc).
  unfold bind, lift, Printf, ret. rewrite Hi, He, Ht, Ho. cbn.
  now rewrite !app_nil_r.
Qed.

Lemma analyze_follow_up (p c : string) (d : Z) (w : W)
      ind ind' out w1 ev1 t v w2 ev2 :
  c <> "" -> indent d = Ret ind ->
  executeCommand c w = (Ret (out, None), w1, ev1) ->
  truncateOutput out maxOutputCharacters = Ret t ->
  callOpenAI (fullPrompt c t) w1 = (Ret (v, None), w2, ev2) ->
  resp_Flagged v = true ->
  FollowUpCommand v <> "" -> FollowUpPrompt v <> "" ->
  d < maxFollowups -> indent (d + 1) = Ret ind' ->
  analyze p c d w
  = (let '(r3, w3, ev3) :=
       analyze (FollowUpPrompt v) (FollowUpCommand v) (d + 1) w2 in
     (match r3 with
      | Ret (child, None) =>
          Ret (mkAnalysisItem p c true (resp_Description v) (resp_Alert v) t
                              [child], None)
      | Ret (_, Some _) =>
          Ret (mkAnalysisItem p c true (resp_Description v) (resp_Alert v) t
                              [], None)
      | Panic msg => Panic msg
      end,
      w3,
      Stdout (ind +++ "Executing command: " +++ c +++ nl) :: ev1 ++ ev2
      ++ Stdout (ind' +++ "Executing follow-up command: "
                 +++ FollowUpCommand v +++ nl) :: ev3)).
Proof.
  intros Hc Hi He Ht Ho Hf Hfc Hfp Hlt Hi'. rewrite analyze_equation_1.
  cbv beta zeta. rewrite (proj2 (String.eqb_neq _ _) Hc).
  unfold bind, lift, Printf, ret. rewrite Hi, He, Ht, Ho.
  cbn [set_Flagged set_AnalysisDescription set_Alert set_RawOutput Flagged
       Prompt Command AnalysisDescription Alert RawOutput FollowUps].
  rewrite Hf, (proj2 (String.eqb_neq _ _) Hfc), (proj2 (String.eqb_neq _ _) Hfp).
  cbn [andb negb].
  destruct (Z_lt_dec d maxFollowups) as [_|n]; [|now elim n].
  rewrite Hi'.
  destruct (analyze _ _ (d + 1) w2) as [[[[child [e|]]|] w3] ev3];
    cbn; rewrite ?app_nil_r, <- ?app_assoc; reflexivity.
Qed.

(** At [maxFollowups] and beyond, a call is its head: it builds a leaf. *)
Lemma analyze_at_limit (p c : string) (d : Z) (w : W) r w' ev :
  maxFollowups <= d ->
  analyze p c d w = (r, w', ev) ->
  (forall item err, r = Ret (item, err) -> FollowUps item = [])
  /\ (length (executed_commands ev) <= 1)%nat
  /\ (length (oracle_prompts ev) <= 1)%nat
  /\ (c <> "" -> forall ind, indent d = Ret ind ->
      executed_commands ev = [["sh"; "-c"; c]]).
Proof.
  intros Hd. rewrite analyze_split. unfold bind.
  destruct (analyze_head p c d w) as [[[[item0 next]|msg] w1] ev1] eqn:Eh.
  - destruct (analyze_head_item _ _ _ _ _ _ _ _ Eh) as (_ & _ & Hf & _ & Hnext).
    destruct next as [[fp fc]|].
    { destruct (Hnext _ _ eq_refl) as (Hlt & _). lia. }
    cbn. intros H; injection H as <- <- <-. rewrite app_nil_r.
    destruct (analyze_head_events _ _ _ _ _ _ _ Eh) as (Hx & Ho).
    repeat split; auto.
    + intros item err H; injection H as <- <-. exact Hf.
    + intros Hc ind Hi. revert Eh. unfold analyze_head. cbv beta zeta.
      rewrite (proj2 (String.eqb_neq _ _) Hc).
      unfold bind, lift, Printf, ret. rewrite Hi.
      destruct (executeCommand_cases c w) as (out & err & w1' & -> & _ & _).
      destruct err as [e|].
      { intros H; injection H as <- <- <-. reflexivity. }
      destruct (truncateOutput out maxOutputCharacters) as [t|]; [|discriminate].
      destruct (callOpenAI_cases (fullPrompt c t) w1')
        as (r2 & w2 & req & -> & _ & _).
      destruct r2 as [[v [e|]]|]; [ | | discriminate].
      * intros H; injection H as <- <- <-. reflexivity.
      * destruct (_ && _ && _); [destruct (Z_lt_dec d maxFollowups); [lia|]|];
          intros H; injection H as <- <- <-; reflexivity.
  - intros H; injection H as <- <- <-.
    destruct (analyze_head_events _ _ _ _ _ _ _ Eh) as (Hx & Ho).
    repeat split; auto; try discriminate.
    intros Hc ind Hi. revert Eh. unfold analyze_head. cbv beta zeta.
    rewrite (proj2 (String.eqb_neq _ _) Hc).
    unfold bind, lift, Printf, ret. rewrite Hi.
    destruct (executeCommand_cases c w) as (out & err & w1' & -> & _ & _).
    destruct err as [e|]; [discriminate|].
    destruct (truncateOutput out maxOutputCharacters) as [t|].
    2:{ intros H; injection H as <- <- <-. reflexivity. }
    destruct (callOpenAI_cases (fullPrompt c t) w1')
      as (r2 & w2 & req & -> & _ & _).
    destruct r2 as [[v [e|]]|]; [discriminate| |].
    + destruct (_ && _ && _); [destruct (Z_lt_dec d maxFollowups); [lia|]|];
        discriminate.
    + intros H; injection H as <- <- <-. reflexivity.
Qed.

(** The check loop keeps the results so far and adds one item per check,
    in order. *)
Lemma main_loop_items (cs : list Check) :
  choices_present ->
  forall results w,
  exists items w' ev,
    main_loop cs results w = (Ret (results ++ items), w', ev)
    /\ Forall2 (fun chk item => Prompt item = chk_Prompt chk
                                /\ Command item = chk_Command chk) cs items.
Proof.
  intros Hc. induction cs as [|chk rest IH]; intros results w.
  - exists [], w, []. cbn. rewrite app_nil_r. split; [reflexivity|constructor].
  - cbn [main_loop]. unfold bind.
    destruct (analyze_returns _ Hc (chk_Prompt chk) (chk_Command chk) 0 w
                (Nat.le_refl _))
      as (item & w1 & ev1 & E); [now vm_compute|].
    rewrite E.
    destruct (analyze_tree _ _ _ _ _ _ _ _ _ (Nat.le_refl _) E)
      as (_ & Hp & Hcm & _).
    destruct (IH (results ++ [item]) w1) as (items & w2 & ev2 & -> & HF).
    exists (item :: items), w2, (ev1 ++ ev2). rewrite <- app_assoc. split.
    + reflexivity.
    + constructor; auto.
Qed.

(** ** The claims *)

(** C2. For every prompt, command and starting depth d with
    0 <= d <= maxFollowups, analyze terminates, and the tree it returns
    has at most maxFollowups levels counted from the depth of the root
    call: d plus the height of the tree is at most maxFollowups (so the
    height is at most 5).  The call always yields an outcome; whenever the
    outcome is an item the bound holds; and the outcome is an item as long
    as the chat service never answers a successful request without a
    choice, the one way such a call can panic instead. *)
Theorem analyze_terminates_within_maxFollowups (p c : string) (d : Z) (w : W) :
  0 <= d <= maxFollowups ->
  exists r w' ev,
    analyze p c d w = (r, w', ev)
    /\ (forall item err,
          r = Ret (item, err) ->
          d + Z.of_nat (height item) <= maxFollowups
          /\ (height item <= 5)%nat)
    /\ (choices_present -> exists item, r = Ret (item, None)).
Proof.
  intros Hd. destruct (analyze p c d w) as [[r w'] ev] eqn:E.
  exists r, w', ev. split; [reflexivity|]. split.
  - intros item err ->.
    destruct (analyze_tree _ _ _ _ _ _ _ _ _ (Nat.le_refl _) E)
      as (_ & _ & _ & _ & _ & Hh & _).
    unfold levels_left, maxFollowups in *. lia.
  - intros Hc.
    destruct (analyze_returns _ Hc p c d w (Nat.le_refl _)) as (item & w1 & ev1 & E1).
    + unfold depth_ok, maxFollowups in *. split; [lia|].
      transitivity 5; [lia | now vm_compute].
    + rewrite E1 in E. injection E as <- _ _. eauto.
Qed.

(** X20. What analyze absorbs.  (1) The error beside a returned item is
    nil, whatever the input: no error value reaches the caller.
    (2) An exec timeout and an exec failure become an item with
    flagged = false whose description is the prefix
    [Command execution error: ] followed by the error text, with no raw
    output.  (3) An oracle transport failure and an oracle parse failure
    become an item with flagged = false whose description is the prefix
    [OpenAI API error: ] followed by the error text, with the truncated
    output attached.  (4) As long as the chat service never answers a
    successful request without a choice, analyze returns an item and a nil
    error at every depth from 0 to maxFollowups, and the check loop of
    main returns a report with exactly one root item per catalog check,
    in catalog order, each with the prompt and the command of its check.
    Parts (2) to (4) are for depths from 0 to maxFollowups. *)
Theorem analyze_absorbs_every_failure :
  (forall p c d w item err w' ev,
      analyze p c d w = (Ret (item, err), w', ev) -> err = None)
  /\ (forall p c d w o w1,
        c <> "" -> 0 <= d <= maxFollowups -> CombinedOutput c w = (o, w1) ->
        (out_deadline_exceeded o = true ->
         exists ev,
           analyze p c d w
           = (Ret (mkAnalysisItem p c false
                     ("Command execution error: "
                      +++ "command execution timed out") "" "" [], None),
              w1, ev))
        /\ (out_deadline_exceeded o = false ->
            forall e, out_err o = Some e ->
            exists ev,
              analyze p c d w
              = (Ret (mkAnalysisItem p c false
                        ("Command execution error: "
                         +++ "failed to execute command: " +++ c
                         +++ ", error: " +++ e) "" "" [], None),
                 w1, ev)))
  /\ (forall p c d w o w1 t resp oerr w2,
        c <> "" -> 0 <= d <= maxFollowups -> CombinedOutput c w = (o, w1) ->
        out_deadline_exceeded o = false -> out_err o = None ->
        truncateOutput (out_bytes o) maxOutputCharacters = Ret t ->
        CreateChatCompletion (chatRequest (detectOS GOOS) (fullPrompt c t)) w1
        = (resp, oerr, w2) ->
        (forall e, oerr = Some e ->
         exists ev,
           analyze p c d w
           = (Ret (mkAnalysisItem p c false ("OpenAI API error: " +++ e)
                                  "" t [], None), w2, ev))
        /\ (forall content rest partial e,
              oerr = None -> Choices resp = content :: rest ->
              json_Unmarshal content = (partial, Some e) ->
              exists ev,
                analyze p c d w
                = (Ret (mkAnalysisItem p c false
                          ("OpenAI API error: "
                           +++ "failed to parse GPT response: " +++ e)
                          "" t [], None), w2, ev)))
  /\ (choices_present ->
      (forall p c d w,
          0 <= d <= maxFollowups ->
          exists item w' ev, analyze p c d w = (Ret (item, None), w', ev))
      /\ (forall cs w,
            exists items w' ev,
              main_report cs w = (Ret (mkReport items), w', ev)
              /\ Forall2 (fun chk item => Prompt item = chk_Prompt chk
                                          /\ Command item = chk_Command chk)
                         cs items)).
Proof.
  split; [|split; [|split]].
  - intros p c d w item err w' ev E.
    exact (proj1 (analyze_tree _ _ _ _ _ _ _ _ _ (Nat.le_refl _) E)).
  - intros p c d w o w1 Hne Hd Hrun.
    destruct (indent_ok d (levels_depth_ok d Hd)) as (ind & Hi). split.
    + intros Hto. eexists.
      eapply analyze_exec_failed; [exact Hne | exact Hi |].
      unfold executeCommand, bind, ret. rewrite Hrun, Hto. reflexivity.
    + intros Hto e He. eexists.
      eapply analyze_exec_failed; [exact Hne | exact Hi |].
      unfold executeCommand, bind, ret. rewrite Hrun, Hto, He. reflexivity.
  - intros p c d w o w1 t resp oerr w2 Hne Hd Hrun Hto Herr Ht Hchat.
    destruct (indent_ok d (levels_depth_ok d Hd)) as (ind & Hi).
    assert (Hx : executeCommand c w
                 = (Ret (out_bytes o, None), w1,
                    [Exec ["sh"; "-c"; c] commandTimeout]))
      by (unfold executeCommand, bind, ret; rewrite Hrun, Hto, Herr; reflexivity).
    split.
    + intros e ->. eexists.
      eapply analyze_oracle_failed; [exact Hne | exact Hi | exact Hx | exact Ht |].
      unfold callOpenAI, bind, ret. rewrite Hchat. reflexivity.
    + intros content rest partial e -> Hch Hjs. eexists.
      eapply analyze_oracle_failed; [exact Hne | exact Hi | exact Hx | exact Ht |].
      unfold callOpenAI, bind, ret, lift. rewrite Hchat, Hch, Hjs. reflexivity.
  - intros Hc. split.
    + intros p c d w Hd.
      exact (analyze_returns _ Hc p c d w (Nat.le_refl _) (levels_depth_ok d Hd)).
    + intros cs w. unfold main_report, bind, ret.
      destruct (main_loop_items cs Hc [] w) as (items & w' & ev & -> & HF).
      exists items, w', (ev ++ []). split; [reflexivity | exact HF].
Qed.

(** C4. Every item returned by analyze, and every item below it, has at
    most one follow-up: the tree is a chain (its nodes are one more than
    its levels), and no more commands were run than the chain has nodes,
    so no sibling follow-up was explored at any depth. *)
Theorem analyze_follow_ups_at_most_one
        (p c : string) (d : Z) (w : W) item err w' ev :
  analyze p c d w = (Ret (item, err), w', ev) ->
  (length (FollowUps item) <= 1)%nat
  /\ Forall (fun x => (length (FollowUps x) <= 1)%nat) (nodes item)
  /\ length (nodes item) = S (height item)
  /\ (length (executed_commands ev) <= length (nodes item))%nat.
Proof.
  intros E.
  destruct (analyze_tree _ _ _ _ _ _ _ _ _ (Nat.le_refl _) E)
    as (_ & _ & _ & HF & _ & _ & Hn & Hx & _).
  repeat split; auto.
  destruct item; cbn in HF. now inversion HF.
Qed.

(** C5. If analyze is invoked at depth maxFollowups - 1 and the oracle
    returns a flagged verdict with both follow-up fields non-empty, then
    the call is the events up to the follow-up announcement followed by
    exactly one call of analyze, at depth maxFollowups, on the follow-up
    prompt and command, whose item becomes the only follow-up.  That
    child runs its own command and nothing else, asks the oracle at most
    once, and returns an item without follow-ups whatever its verdict. *)
Theorem analyze_last_level_follow_up
        (p c : string) (w : W) out w1 ev1 t v w2 ev2 :
  c <> "" ->
  executeCommand c w = (Ret (out, None), w1, ev1) ->
  truncateOutput out maxOutputCharacters = Ret t ->
  callOpenAI (fullPrompt c t) w1 = (Ret (v, None), w2, ev2) ->
  resp_Flagged v = true ->
  FollowUpPrompt v <> "" ->
  FollowUpCommand v <> "" ->
  exists r3 w3 ev3,
    analyze (FollowUpPrompt v) (FollowUpCommand v) maxFollowups w2
    = (r3, w3, ev3)
    /\ analyze p c (maxFollowups - 1) w
       = (match r3 with
          | Ret (child, _) =>
              Ret (mkAnalysisItem p c true (resp_Description v)
                                  (resp_Alert v) t [child], None)
          | Panic msg => Panic msg
          end,
          w3,
          Stdout (repeat_string "  " 4 +++ "Executing command: " +++ c +++ nl)
          :: ev1 ++ ev2
          ++ Stdout (repeat_string "  " 5 +++ "Executing follow-up command: "
                     +++ FollowUpCommand v +++ nl)
          :: ev3)
    /\ executed_commands ev3 = [["sh"; "-c"; FollowUpCommand v]]
    /\ (length (oracle_prompts ev3) <= 1)%nat
    /\ (forall child err, r3 = Ret (child, err) -> FollowUps child = []).
Proof.
  intros Hc He Ht Ho Hf Hfp Hfc.
  destruct (analyze (FollowUpPrompt v) (FollowUpCommand v) maxFollowups w2)
    as [[r3 w3] ev3] eqn:E3.
  exists r3, w3, ev3. split; [reflexivity|].
  destruct (analyze_at_limit _ _ _ _ _ _ _ (Z.le_refl _) E3)
    as (Hleaf & _ & Hq & Hrun).
  split; [|split; [|split]]; auto.
  - rewrite (analyze_follow_up p c (maxFollowups - 1) w
               (repeat_string "  " 4) (repeat_string "  " 5)
               out w1 ev1 t v w2 ev2); auto; try reflexivity.
    change (maxFollowups - 1 + 1) with maxFollowups. rewrite E3.
    destruct r3 as [[child [e|]]|]; try reflexivity.
    destruct (analyze_tree _ _ _ _ _ _ _ _ _ (Nat.le_refl _) E3) as (? & _).
    discriminate.
  - apply (Hrun Hfc (repeat_string "  " 5)). reflexivity.
Qed.

(** C6. If the command runs into the deadline, analyze returns an item
    with flagged = false whose description is the timeout error text as
    analyze reports it ([Command execution error: ] before the text of
    the timeout error of executeCommand); its raw output is empty whatever
    the command had written; the only call made to the outside is the
    command itself: no request goes to the oracle, and the outside is left
    in the state the command left it in. *)
Theorem analyze_timeout (p c : string) (d : Z) (w : W) o w1 :
  c <> "" -> depth_ok d ->
  CombinedOutput c w = (o, w1) ->
  out_deadline_exceeded o = true ->
  executeCommand c w
  = (Ret ("", Some (errors_New "command execution timed out")), w1,
     [Exec ["sh"; "-c"; c] commandTimeout])
  /\ exists item ev,
      analyze p c d w = (Ret (item, None), w1, ev)
      /\ Flagged item = false
      /\ AnalysisDescription item
         = "Command execution error: command execution timed out"
      /\ RawOutput item = ""
      /\ FollowUps item = []
      /\ filter is_ChatCompletion ev = []
      /\ oracle_prompts ev = []
      /\ executed_commands ev = [["sh"; "-c"; c]].
Proof.
  intros Hc Hd Hrun Hto.
  assert (Hx : executeCommand c w
               = (Ret ("", Some (errors_New "command execution timed out")), w1,
                  [Exec ["sh"; "-c"; c] commandTimeout]))
    by (unfold executeCommand, bind, ret; rewrite Hrun, Hto; reflexivity).
  split; [exact Hx|].
  destruct (indent_ok d Hd) as (ind & Hi).
  do 2 eexists. split.
  - exact (analyze_exec_failed p c d w ind _ _ w1 _ Hc Hi Hx).
  - repeat split.
Qed.

(** C7. For every prompt and depth, analyze with the empty command
    returns an item with flagged = false, empty raw output and no
    follow-ups (the description says that no command was provided), makes
    no call to the outside, neither a command nor a request to the
    oracle, and leaves the outside as it was. *)
Theorem analyze_without_command (p : string) (d : Z) (w : W) :
  analyze p "" d w
  = (Ret (mkAnalysisItem p "" false "No command provided" "" "" [], None),
     w, []).
Proof.
  rewrite analyze_equation_1. cbv beta zeta.
  change (String.eqb "" "") with true. cbv iota.
  unfold set_AnalysisDescription, set_Flagged, ret. reflexivity.
Qed.

(** C9. Every node of the tree returned by analyze has a raw output of at
    most maxOutputCharacters bytes; and when the command runner fails, it
    hands back no output, so the item carries the empty string. *)
Theorem analyze_raw_output_bounded
        (p c : string) (d : Z) (w : W) item err w' ev :
  analyze p c d w = (Ret (item, err), w', ev) ->
  Forall (fun x => len (RawOutput x) <= maxOutputCharacters) (nodes item)
  /\ (forall out e w1 ev1,
        executeCommand c w = (Ret (out, Some e), w1, ev1) ->
        out = "" /\ RawOutput item = "").
Proof.
  intros E. split.
  - now destruct (analyze_tree _ _ _ _ _ _ _ _ _ (Nat.le_refl _) E)
      as (_ & _ & _ & _ & HR & _).
  - intros out e w1 ev1 Hx.
    destruct (executeCommand_cases c w) as (out' & err' & w1' & Hx' & _ & Hout).
    rewrite Hx in Hx'. injection Hx' as <- <- <-.
    rewrite Hout in * by discriminate. split; [reflexivity|].
    destruct (String.eqb_spec c "") as [->|Hc].
    + rewrite analyze_empty_command in E. now injection E as <- _ _ _.
    + destruct (indent d) as [ind|msg] eqn:Hi.
      * rewrite (analyze_exec_failed p c d w ind _ _ _ _ Hc Hi Hx) in E.
        now injection E as <- _ _ _.
      * rewrite (analyze_indent_panic p c d w msg Hc Hi) in E. discriminate.
Qed.

(** C10. On every path, the item analyze returns carries the prompt and
    the command it was called with. *)
Theorem analyze_keeps_prompt_and_command
        (p c : string) (d : Z) (w : W) item err w' ev :
  analyze p c d w = (Ret (item, err), w', ev) ->
  Prompt item = p /\ Command item = c.
Proof.
  intros E.
  now destruct (analyze_tree _ _ _ _ _ _ _ _ _ (Nat.le_refl _) E)
    as (_ & Hp & Hcm & _).
Qed.

(** X1. The first context prompt that goes to the oracle is [fullPrompt] of the
    command and the truncated output; the prompt argument is no part of it. *)
Theorem analyze_first_oracle_prompt
        (p c : string) (d : Z) (w : W) out w1 ev1 t r w' ev :
  c <> "" -> depth_ok d ->
  executeCommand c w = (Ret (out, None), w1, ev1) ->
  truncateOutput out maxOutputCharacters = Ret t ->
  analyze p c d w = (r, w', ev) ->
  hd_error (oracle_prompts ev) = Some (fullPrompt c t).
Proof.
  intros Hc Hd Hx Ht. destruct (indent_ok d Hd) as (ind & Hi).
  destruct (executeCommand_cases c w) as (out' & err' & w1' & Hx' & _ & _).
  rewrite Hx in Hx'. injection Hx' as <- <- <- ->.
  destruct (callOpenAI_cases (fullPrompt c t) w1) as (r2 & w2 & req & Ho & Hu & _).
  assert (Hh : exists rh wh rest,
             analyze_head p c d w
             = (rh, wh, Stdout (ind +++ "Executing command: " +++ c +++ nl)
                        :: Exec ["sh"; "-c"; c] commandTimeout
                        :: ChatCompletion req :: rest)).
  { unfold analyze_head. cbv beta zeta. rewrite (proj2 (String.eqb_neq _ _) Hc).
    unfold bind, lift, Printf, ret. rewrite Hi, Hx, Ht, Ho.
    destruct r2 as [[v [e|]]|]; [ | | do 3 eexists; reflexivity].
    - do 3 eexists; reflexivity.
    - destruct (_ && _ && _); [destruct (Z_lt_dec d maxFollowups);
                                [destruct (indent (d + 1))|]|];
        do 3 eexists; reflexivity. }
  destruct Hh as (rh & wh & rest & Hh).
  rewrite analyze_split. unfold bind. rewrite Hh.
  assert (Hq : forall tl,
             hd_error (oracle_prompts
                         ((Stdout (ind +++ "Executing command: " +++ c +++ nl)
                           :: Exec ["sh"; "-c"; c] commandTimeout
                           :: ChatCompletion req :: rest) ++ tl))
             = Some (fullPrompt c t)).
  { intros tl. unfold oracle_prompts. cbn [app flat_map]. rewrite Hu. reflexivity. }
  destruct rh as [x|msg].
  - destruct (analyze_tail (fst x) (snd x) d wh) as [[rt wt] evt].
    intros H; injection H as <- <- <-. apply Hq.
  - intros H; injection H as <- <- <-. rewrite <- (app_nil_r (_ :: _)). apply Hq.
Qed.

(** X2. A negative depth cannot be indented: analyze panics before it runs
    the command. *)
Theorem analyze_negative_depth_panics (p c : string) (d : Z) (w : W) :
  c <> "" -> d < 0 ->
  analyze p c d w = (Panic "strings: negative Repeat count", w, []).
Proof.
  intros Hc Hd. apply analyze_indent_panic; [exact Hc|].
  unfold indent, strings_Repeat.
  replace (d =? 0) with false by (symmetry; apply Z.eqb_neq; lia).
  replace (d =? 1) with false by (symmetry; apply Z.eqb_neq; lia).
  replace (d <? 0) with true by (symmetry; apply Z.ltb_lt; lia).
  reflexivity.
Qed.

End EngineFacts.

(** C8. For every maxChars >= 0 and every string s, truncateOutput returns
    a string of length min(len(s), maxChars) that is a prefix of s, and s
    itself when len(s) <= maxChars.  Lengths are in bytes, as Go's len. *)
Theorem truncateOutput_min_length_prefix (s : string) (maxChars : Z) :
  0 <= maxChars ->
  exists t, truncateOutput s maxChars = Ret t
            /\ len t = Z.min (len s) maxChars
            /\ prefix t s = true
            /\ (len s <= maxChars -> t = s).
Proof.
  intros Hm.
  destruct (truncateOutput_cases s maxChars Hm) as [[L E]|[L E]];
    rewrite E; eexists; (split; [reflexivity|]).
  - repeat split; [lia | apply prefix_refl].
  - unfold len in *. rewrite substring_0_length.
    repeat split; [lia | apply substring_0_prefix | lia].
Qed.

(** ** The engine on the test doubles *)

Abbreviation stub_analyze oracle :=
  (analyze Stub.World "darwin" Stub.runner oracle Stub.decode).

Lemma oracle_always_choices_present (content : string) :
  choices_present Stub.World (Stub.oracle_always content).
Proof.
  intros req w resp w' H. unfold Stub.oracle_always in H.
  injection H as <- _. discriminate.
Qed.

Lemma oracle_script_choices_present (script : list string) :
  choices_present Stub.World (Stub.oracle_script script).
Proof.
  intros req w resp w' H. unfold Stub.oracle_script in H.
  destruct (nth_error script w); [|discriminate].
  injection H as <- _. discriminate.
Qed.

(** C1, on the code.  For the catalog check [last | head -n 20] the one
    context prompt sent to the oracle is the command text with the
    truncated output.  It is not the check prompt with the truncated
    output, and the check prompt occurs nowhere in it. *)
Theorem analyze_context_prompt_leaves_check_prompt_out :
  let prompt :=
    "Review the most recent login history for any unusual user activity." in
  let command := "last | head -n 20" in
  let output := "output of last | head -n 20" +++ nl in
  let run := stub_analyze (Stub.oracle_always Stub.reply_clear)
                          prompt command 0 0%nat in
  oracle_prompts (snd run)
  = [command +++ nl +++ nl +++ "Command output (truncated):" +++ nl +++ output]
  /\ oracle_prompts (snd run) <> [spec_context_prompt prompt output]
  /\ Forall (fun sent => index 0 prompt sent = None) (oracle_prompts (snd run)).
Proof.
  cbv zeta. split; [now vm_compute|]. split.
  - vm_compute. discriminate.
  - vm_compute. repeat constructor.
Qed.

(** ** Instances on the test doubles *)

Lemma truncateOutput_min_length_prefix_witness :
  0 <= 3
  /\ exists t, truncateOutput "abcdef" 3 = Ret t
               /\ len t = Z.min (len "abcdef") 3
               /\ prefix t "abcdef" = true
               /\ (len "abcdef" <= 3 -> t = "abcdef").
Proof.
  split; [lia|]. apply (truncateOutput_min_length_prefix "abcdef" 3). lia.
Defined.

Lemma analyze_terminates_within_maxFollowups_witness :
  0 <= 0 <= maxFollowups
  /\ exists r w' ev,
      stub_analyze (Stub.oracle_always Stub.reply_flag) "check" "echo ok" 0 0%nat
      = (r, w', ev)
      /\ (forall item err,
            r = Ret (item, err) ->
            0 + Z.of_nat (height item) <= maxFollowups
            /\ (height item <= 5)%nat)
      /\ (choices_present Stub.World (Stub.oracle_always Stub.reply_flag) ->
          exists item, r = Ret (item, None)).
Proof.
  split; [unfold maxFollowups; lia|].
  apply (analyze_terminates_within_maxFollowups
           Stub.World "darwin" Stub.runner
           (Stub.oracle_always Stub.reply_flag) Stub.decode "check" "echo ok"
           0 0%nat).
  unfold maxFollowups; lia.
Defined.

Lemma analyze_absorbs_every_failure_witness :
  choices_present Stub.World
                  (Stub.oracle_script [Stub.reply_flag; Stub.reply_clear])
  /\ (exists ev,
         stub_analyze (Stub.oracle_script [Stub.reply_flag; Stub.reply_clear])
                      "check" "sleep 60" 0 0%nat
         = (Ret (mkAnalysisItem "check" "sleep 60" false
                   "Command execution error: command execution timed out"
                   "" "" [], None), 0%nat, ev))
  /\ (exists ev,
         stub_analyze (Stub.oracle_script []) "check" "echo ok" 0 0%nat
         = (Ret (mkAnalysisItem "check" "echo ok" false
                   "OpenAI API error: connection refused"
                   "" ("output of echo ok" +++ nl) [], None), 1%nat, ev))
  /\ (exists items w' ev,
         main_report Stub.World "darwin" Stub.runner
                     (Stub.oracle_script [Stub.reply_flag; Stub.reply_clear])
                     Stub.decode checks_MacOS 0%nat
         = (Ret (mkReport items), w', ev)
         /\ Forall2 (fun chk item => Prompt item = chk_Prompt chk
                                     /\ Command item = chk_Command chk)
                    checks_MacOS items).
Proof.
  pose proof (analyze_absorbs_every_failure
                Stub.World "darwin" Stub.runner
                (Stub.oracle_script [Stub.reply_flag; Stub.reply_clear])
                Stub.decode)
    as (_ & Hexec & _ & Hall).
  pose proof (analyze_absorbs_every_failure
                Stub.World "darwin" Stub.runner
                (Stub.oracle_script []) Stub.decode)
    as (_ & _ & Horacle & _).
  split; [apply oracle_script_choices_present|]. split; [|split].
  - refine (proj1 (Hexec "check" "sleep 60" 0 0%nat _ 0%nat _ _ _) _).
    + discriminate.
    + now vm_compute.
    + reflexivity.
    + reflexivity.
  - refine (proj1 (Horacle "check" "echo ok" 0 0%nat _ 0%nat
                           ("output of echo ok" +++ nl) _ _ 1%nat
                           _ _ _ _ _ _ _) "connection refused" _).
    + discriminate.
    + now vm_compute.
    + reflexivity.
    + reflexivity.
    + reflexivity.
    + reflexivity.
    + reflexivity.
    + reflexivity.
  - apply (proj2 (Hall (oracle_script_choices_present _))).
Defined.

Lemma analyze_follow_ups_at_most_one_witness :
  exists item err w' ev,
    stub_analyze (Stub.oracle_always Stub.reply_flag) "check" "echo ok" 0 0%nat
    = (Ret (item, err), w', ev)
    /\ (length (FollowUps item) <= 1)%nat
    /\ Forall (fun x => (length (FollowUps x) <= 1)%nat) (nodes item)
    /\ length (nodes item) = S (height item)
    /\ (length (executed_commands ev) <= length (nodes item))%nat.
Proof.
  do 4 eexists. split.
  - vm_compute. reflexivity.
  - eapply (analyze_follow_ups_at_most_one
              Stub.World "darwin" Stub.runner
              (Stub.oracle_always Stub.reply_flag) Stub.decode
              "check" "echo ok" 0 0%nat).
    vm_compute. reflexivity.
Defined.

Lemma analyze_last_level_follow_up_witness :
  let oracle := Stub.oracle_always Stub.reply_flag in
  let t := "output of echo ok" +++ nl in
  let v := mkGPTResponse true "susp" "deeper" "echo f" "" in
  let ev1 := [Exec ["sh"; "-c"; "echo ok"] commandTimeout] in
  let ev2 := [ChatCompletion (chatRequest "macOS" (fullPrompt "echo ok" t))] in
  "echo ok" <> ""
  /\ executeCommand Stub.World Stub.runner "echo ok" 0%nat
     = (Ret (t, None), 0%nat, ev1)
  /\ truncateOutput t maxOutputCharacters = Ret t
  /\ callOpenAI Stub.World "darwin" oracle Stub.decode
                (fullPrompt "echo ok" t) 0%nat
     = (Ret (v, None), 1%nat, ev2)
  /\ exists r3 w3 ev3,
      stub_analyze oracle "deeper" "echo f" maxFollowups 1%nat = (r3, w3, ev3)
      /\ stub_analyze oracle "check" "echo ok" (maxFollowups - 1) 0%nat
         = (match r3 with
            | Ret (child, _) =>
                Ret (mkAnalysisItem "check" "echo ok" true "susp" "" t [child],
                     None)
            | Panic msg => Panic msg
            end,
            w3,
            Stdout (repeat_string "  " 4 +++ "Executing command: "
                    +++ "echo ok" +++ nl)
            :: ev1 ++ ev2
            ++ Stdout (repeat_string "  " 5 +++ "Executing follow-up command: "
                       +++ "echo f" +++ nl)
            :: ev3)
      /\ executed_commands ev3 = [["sh"; "-c"; "echo f"]]
      /\ (length (oracle_prompts ev3) <= 1)%nat
      /\ (forall child err, r3 = Ret (child, err) -> FollowUps child = []).
Proof.
  cbv zeta.
  split; [discriminate|]. split; [reflexivity|]. split; [reflexivity|].
  split; [reflexivity|].
  apply (analyze_last_level_follow_up
           Stub.World "darwin" Stub.runner
           (Stub.oracle_always Stub.reply_flag) Stub.decode
           "check" "echo ok" 0%nat
           ("output of echo ok" +++ nl) 0%nat
           [Exec ["sh"; "-c"; "echo ok"] commandTimeout]
           ("output of echo ok" +++ nl)
           (mkGPTResponse true "susp" "deeper" "echo f" "") 1%nat
           [ChatCompletion
              (chatRequest "macOS"
                 (fullPrompt "echo ok" ("output of echo ok" +++ nl)))]);
    first [reflexivity | discriminate].
Defined.

Lemma analyze_timeout_witness :
  let o := mkCmdOutcome "partial output" (Some "signal: killed") true in
  "sleep 60" <> "" /\ depth_ok 2
  /\ Stub.runner "sleep 60" 0%nat = (o, 0%nat)
  /\ out_deadline_exceeded o = true
  /\ executeCommand Stub.World Stub.runner "sleep 60" 0%nat
     = (Ret ("", Some (errors_New "command execution timed out")), 0%nat,
        [Exec ["sh"; "-c"; "sleep 60"] commandTimeout])
  /\ exists item ev,
      stub_analyze (Stub.oracle_always Stub.reply_flag) "check" "sleep 60" 2 0%nat
      = (Ret (item, None), 0%nat, ev)
      /\ Flagged item = false
      /\ AnalysisDescription item
         = "Command execution error: command execution timed out"
      /\ RawOutput item = ""
      /\ FollowUps item = []
      /\ filter is_ChatCompletion ev = []
      /\ oracle_prompts ev = []
      /\ executed_commands ev = [["sh"; "-c"; "sleep 60"]].
Proof.
  cbv zeta.
  split; [discriminate|]. split; [now vm_compute|].
  split; [reflexivity|]. split; [reflexivity|].
  apply (analyze_timeout
           Stub.World "darwin" Stub.runner
           (Stub.oracle_always Stub.reply_flag) Stub.decode
           "check" "sleep 60" 2 0%nat
           (mkCmdOutcome "partial output" (Some "signal: killed") true) 0%nat);
    first [reflexivity | discriminate | now vm_compute].
Defined.

Lemma analyze_raw_output_bounded_witness :
  exists item err w' ev,
    stub_analyze (Stub.oracle_always Stub.reply_flag) "check" "false" 0 0%nat
    = (Ret (item, err), w', ev)
    /\ Forall (fun x => len (RawOutput x) <= maxOutputCharacters) (nodes item)
    /\ (forall out e w1 ev1,
          executeCommand Stub.World Stub.runner "false" 0%nat
          = (Ret (out, Some e), w1, ev1) ->
          out = "" /\ RawOutput item = "").
Proof.
  do 4 eexists. split.
  - vm_compute. reflexivity.
  - eapply (analyze_raw_output_bounded
              Stub.World "darwin" Stub.runner
              (Stub.oracle_always Stub.reply_flag) Stub.decode
              "check" "false" 0 0%nat).
    vm_compute. reflexivity.
Defined.

Lemma analyze_keeps_prompt_and_command_witness :
  exists item err w' ev,
    stub_analyze (Stub.oracle_script [Stub.reply_flag; Stub.reply_clear])
                 "check" "echo ok" 0 0%nat
    = (Ret (item, err), w', ev)
    /\ Prompt item = "check" /\ Command item = "echo ok".
Proof.
  do 4 eexists. split.
  - vm_compute. reflexivity.
  - eapply (analyze_keeps_prompt_and_command
              Stub.World "darwin" Stub.runner
              (Stub.oracle_script [Stub.reply_flag; Stub.reply_clear])
              Stub.decode "check" "echo ok" 0 0%nat).
    vm_compute. reflexivity.
Defined.

Lemma analyze_first_oracle_prompt_witness :
  let t := "output of echo ok" +++ nl in
  "echo ok" <> "" /\ depth_ok 0
  /\ executeCommand Stub.World Stub.runner "echo ok" 0%nat
     = (Ret (t, None), 0%nat, [Exec ["sh"; "-c"; "echo ok"] commandTimeout])
  /\ truncateOutput t maxOutputCharacters = Ret t
  /\ hd_error
       (oracle_prompts
          (snd (stub_analyze (Stub.oracle_always Stub.reply_clear)
                             "check" "echo ok" 0 0%nat)))
     = Some (fullPrompt "echo ok" t).
Proof.
  cbv zeta.
  split; [discriminate|]. split; [now vm_compute|].
  split; [reflexivity|]. split; [reflexivity|].
  eapply (analyze_first_oracle_prompt
            Stub.World "darwin" Stub.runner
            (Stub.oracle_always Stub.reply_clear) Stub.decode
            "check" "echo ok" 0 0%nat
            ("output of echo ok" +++ nl) 0%nat
            [Exec ["sh"; "-c"; "echo ok"] commandTimeout]
            ("output of echo ok" +++ nl));
    first [discriminate | now vm_compute | reflexivity].
Defined.

Lemma analyze_negative_depth_panics_witness :
  "echo ok" <> "" /\ -1 < 0
  /\ stub_analyze (Stub.oracle_always Stub.reply_clear) "check" "echo ok" (-1) 0%nat
     = (Panic "strings: negative Repeat count", 0%nat, []).
Proof.
  split; [discriminate|]. split; [lia|].
  apply (analyze_negative_depth_panics
           Stub.World "darwin" Stub.runner
           (Stub.oracle_always Stub.reply_clear) Stub.decode
           "check" "echo ok" (-1) 0%nat); [discriminate | lia].
Defined.


(** The end-to-end scenarios of the spec: an oracle that clears the check,
    and one that flags it once and clears the follow-up; and an oracle
    that flags everything, whose tree reaches the bound. *)
Example scenario_clear :
  fst (fst (main_report Stub.World "darwin" Stub.runner
              (Stub.oracle_always Stub.reply_clear) Stub.decode
              [mkCheck "echo ok" "check"] 0%nat))
  = Ret (mkReport [mkAnalysisItem "check" "echo ok" false "clear" ""
                     ("output of echo ok" +++ nl) []]).
Proof. now vm_compute. Qed.

Example scenario_one_follow_up :
  fst (fst (main_report Stub.World "darwin" Stub.runner
              (Stub.oracle_script [Stub.reply_flag; Stub.reply_clear])
              Stub.decode [mkCheck "echo ok" "check"] 0%nat))
  = Ret (mkReport
           [mkAnalysisItem "check" "echo ok" true "susp" ""
              ("output of echo ok" +++ nl)
              [mkAnalysisItem "deeper" "echo f" false "clear" ""
                 ("output of echo f" +++ nl) []]]).
Proof. now vm_compute. Qed.

Example scenario_always_flagged :
  match fst (fst (stub_analyze (Stub.oracle_always Stub.reply_flag)
                               "check" "echo ok" 0 0%nat)) with
  | Ret (item, _) => height item = 5%nat /\ length (nodes item) = 6%nat
  | Panic _ => False
  end.
Proof. now vm_compute. Qed.

(** * More of the code *)

(** ** truncateOutput and indent at their edges *)

Lemma substring_0_substring_0 (s : string) (a b : nat) :
  substring 0 a (substring 0 b s) = substring 0 (Nat.min a b) s.
Proof.
  revert a b; induction s as [|ch s IH]; intros [|a] [|b]; simpl; auto.
  now rewrite IH.
Qed.

Lemma substring_0_all (s : string) (n : nat) :
  (String.length s <= n)%nat -> substring 0 n s = s.
Proof.
  revert n; induction s as [|ch s IH]; intros [|n] H; simpl in *; auto; try lia.
  rewrite IH by lia. reflexivity.
Qed.

(** X4. A negative bound makes truncateOutput panic on every string, the
    empty one included: the length is never below the bound, so the slice
    expression is always reached. *)
Theorem truncateOutput_negative_bound_panics (s : string) (maxLen : Z) :
  maxLen < 0 ->
  exists msg, truncateOutput s maxLen = Panic msg.
Proof.
  intros Hm. eexists. unfold truncateOutput, slice_to.
  assert (0 <= len s) by (unfold len; lia).
  replace (len s >? maxLen) with true by (symmetry; apply Z.gtb_lt; lia).
  replace (maxLen <? 0) with true by (symmetry; apply Z.ltb_lt; lia).
  reflexivity.
Qed.

(** X5. Truncating twice is truncating once to the smaller bound; in
    particular truncateOutput is idempotent. *)
Theorem truncateOutput_twice (s t : string) (n m : Z) :
  0 <= n -> 0 <= m ->
  truncateOutput s n = Ret t ->
  truncateOutput t m = truncateOutput s (Z.min n m)
  /\ truncateOutput t n = Ret t.
Proof.
  intros Hn Hm Ht.
  assert (Hgen : forall k, 0 <= k ->
                   truncateOutput t k = truncateOutput s (Z.min n k)).
  { intros k Hk.
    destruct (truncateOutput_cases s n Hn) as [[L E]|[L E]];
      rewrite E in Ht; injection Ht as <-.
    - destruct (truncateOutput_cases s k Hk) as [[L' E']|[L' E']]; rewrite E'.
      + destruct (truncateOutput_cases s (Z.min n k)) as [[L2 E2]|[L2 E2]];
          try lia; rewrite E2; reflexivity.
      + replace (Z.min n k) with k by lia. now rewrite E'.
    - assert (Hl : len (substring 0 (Z.to_nat n) s) = n)
        by (unfold len in *; rewrite substring_0_length; lia).
      destruct (truncateOutput_cases s (Z.min n k)) as [[L2 E2]|[L2 E2]];
        try lia; rewrite E2.
      destruct (truncateOutput_cases (substring 0 (Z.to_nat n) s) k Hk)
        as [[L' E']|[L' E']]; rewrite E'.
      + replace (Z.min n k) with n by lia. reflexivity.
      + rewrite substring_0_substring_0. f_equal. f_equal. lia. }
  split.
  - apply Hgen, Hm.
  - rewrite (Hgen n Hn), Z.min_id. exact Ht.
Qed.

Lemma append_length (s1 s2 : string) :
  String.length (s1 +++ s2) = (String.length s1 + String.length s2)%nat.
Proof. induction s1 as [|ch s1 IH]; simpl; auto. Qed.

Lemma repeat_string_length (s : string) (n : nat) :
  String.length (repeat_string s n) = (n * String.length s)%nat.
Proof.
  induction n as [|n IH]; simpl; [reflexivity|].
  rewrite append_length, IH. reflexivity.
Qed.

Lemma repeat_two_spaces (n : nat) : all_spaces (repeat_string "  " n) = true.
Proof. induction n as [|n IH]; simpl; auto. Qed.

Lemma indent_negative (depth : Z) :
  depth < 0 -> exists msg, indent depth = Panic msg.
Proof.
  intros Hd. unfold indent, strings_Repeat.
  replace (depth =? 0) with false by (symmetry; apply Z.eqb_neq; lia).
  replace (depth =? 1) with false by (symmetry; apply Z.eqb_neq; lia).
  replace (depth <? 0) with true by (symmetry; apply Z.ltb_lt; lia).
  eauto.
Qed.

(** X6. At the depths analyze is called with from main, 0 up to
    maxFollowups, indent returns 2 * depth spaces.  At a negative depth,
    and at a depth above maxInt / 2, [strings.Repeat] panics.  (Between
    the two, whether the result can be allocated is not a matter of this
    program.) *)
Theorem indent_two_spaces_per_level (depth : Z) :
  (0 <= depth <= maxFollowups ->
   exists ind, indent depth = Ret ind
               /\ len ind = 2 * depth /\ all_spaces ind = true)
  /\ (depth < 0 \/ maxInt / 2 < depth -> exists msg, indent depth = Panic msg).
Proof.
  assert (Hm : maxFollowups < maxInt / 2) by now vm_compute.
  unfold indent, strings_Repeat. split.
  - intros Hd.
    destruct (depth =? 0) eqn:E0.
    { apply Z.eqb_eq in E0. subst. eexists; repeat split. }
    destruct (depth =? 1) eqn:E1.
    { apply Z.eqb_eq in E1. subst. eexists; repeat split. }
    replace (depth <? 0) with false by (symmetry; apply Z.ltb_ge; lia).
    assert (2 * (maxInt / 2) <= maxInt) by (apply Z.mul_div_le; reflexivity).
    replace (maxInt <? len "  " * depth) with false
      by (symmetry; apply Z.ltb_ge; change (len "  ") with 2; lia).
    eexists; split; [reflexivity|]. split.
    + unfold len. rewrite repeat_string_length. simpl String.length. lia.
    + apply repeat_two_spaces.
  - intros Hd. unfold maxFollowups in Hm.
    destruct (depth =? 0) eqn:E0.
    { apply Z.eqb_eq in E0. lia. }
    destruct (depth =? 1) eqn:E1.
    { apply Z.eqb_eq in E1. lia. }
    destruct (depth <? 0) eqn:En; [eauto|].
    apply Z.ltb_ge in En.
    replace (maxInt <? len "  " * depth) with true; [eauto|].
    symmetry; apply Z.ltb_lt. change (len "  ") with 2.
    assert (maxInt / 2 < depth) by lia.
    assert (maxInt < 2 * (maxInt / 2) + 2)
      by (pose proof (Z.mod_pos_bound maxInt 2 ltac:(lia));
          pose proof (Z.div_mod maxInt 2 ltac:(lia)); lia).
    lia.
Qed.

(** ** More facts about the engine *)

Section EngineMore.

Variable W : Type.
Variable GOOS : string.
Variable CombinedOutput : string -> W -> CmdOutcome * W.
Variable CreateChatCompletion :
  ChatCompletionRequest -> W -> (ChatCompletionResponse * option error) * W.
Variable json_Unmarshal : string -> GPTResponse * option error.

Abbreviation executeCommand := (executeCommand W CombinedOutput).
Abbreviation callOpenAI := (callOpenAI W GOOS CreateChatCompletion json_Unmarshal).
Abbreviation analyze :=
  (analyze W GOOS CombinedOutput CreateChatCompletion json_Unmarshal).
Abbreviation analyze_head :=
  (analyze_head W GOOS CombinedOutput CreateChatCompletion json_Unmarshal).
Abbreviation analyze_tail :=
  (analyze_tail W GOOS CombinedOutput CreateChatCompletion json_Unmarshal).
Abbreviation main_loop :=
  (main_loop W GOOS CombinedOutput CreateChatCompletion json_Unmarshal).
Abbreviation choices_present := (choices_present W CreateChatCompletion).

(** Induction over the levels of a call: a property of every call follows
    from its proof for a call whose nested calls, one level deeper and
    below [maxFollowups], have it. *)
Lemma analyze_level_ind
      (Q : string -> string -> Z -> W
           -> Res (AnalysisItem * option error) * W * list Event -> Prop) :
  (forall p c d w,
      (forall fp fc w1, d < maxFollowups ->
                        Q fp fc (d + 1) w1 (analyze fp fc (d + 1) w1)) ->
      Q p c d w (analyze p c d w)) ->
  forall p c d w, Q p c d w (analyze p c d w).
Proof.
  intros step p c d w.
  remember (levels_left d) as n eqn:En.
  revert p c d w En. induction n as [n IH] using lt_wf_ind.
  intros p c d w ->. apply step. intros fp fc w1 Hlt.
  apply (IH (levels_left (d + 1))); [now apply levels_left_succ | reflexivity].
Qed.

(** What the head runs: the command, when there is one and the depth can
    be indented; and a request only after the command. *)
Lemma analyze_head_trace (p c : string) (d : Z) (w : W) r w1 ev :
  analyze_head p c d w = (r, w1, ev) ->
  (length (oracle_prompts ev) <= length (executed_commands ev))%nat
  /\ (c = "" -> ev = [])
  /\ (d < 0 -> executed_commands ev = [])
  /\ (forall x, r = Ret x ->
        executed_commands ev
        = if String.eqb c "" then [] else [["sh"; "-c"; c]]).
Proof.
  unfold analyze_head. cbv beta zeta.
  destruct (String.eqb_spec c "") as [->|Hc].
  { intros H; injection H as <- <- <-. cbn. repeat split; auto. }
  unfold bind, lift, Printf, ret.
  destruct (indent d) as [ind|msg] eqn:Hi.
  2:{ intros H; injection H as <- <- <-. cbn.
      repeat split; auto; try easy. }
  assert (Hd : d < 0 -> False).
  { intros Hd. destruct (indent_negative d Hd) as (msg & Hp). congruence. }
  destruct (executeCommand_cases _ CombinedOutput c w)
    as (out & err & w1' & -> & _ & _).
  destruct err as [e|].
  { intros H; injection H as <- <- <-. cbn.
    repeat split; auto; try easy; intros; exfalso; auto. }
  destruct (truncateOutput out maxOutputCharacters) as [t|].
  2:{ intros H; injection H as <- <- <-. cbn.
      repeat split; auto; try easy; intros; exfalso; auto. }
  destruct (callOpenAI_cases _ GOOS CreateChatCompletion json_Unmarshal
                             (fullPrompt c t) w1')
    as (r2 & w2 & req & -> & Hu & _).
  destruct r2 as [[v [e|]]|];
    [ | destruct (_ && _ && _); [destruct (Z_lt_dec d maxFollowups);
                                  [destruct (indent (d + 1))|]|] | ];
    intros H; injection H as <- <- <-;
    unfold oracle_prompts, executed_commands; cbn [app flat_map];
    rewrite Hu; cbn;
    (repeat split; auto; try easy; intros; exfalso; auto).
Qed.

(** The events of a call, whatever its outcome: a request only after a
    command, and no more commands than levels are left. *)
Lemma analyze_events_bound (p c : string) (d : Z) (w : W) :
  let ev := snd (analyze p c d w) in
  (length (oracle_prompts ev) <= length (executed_commands ev))%nat
  /\ (length (executed_commands ev) <= S (levels_left d))%nat.
Proof.
  apply (analyze_level_ind
           (fun p c d w run =>
              let ev := snd run in
              (length (oracle_prompts ev) <= length (executed_commands ev))%nat
              /\ (length (executed_commands ev) <= S (levels_left d))%nat)).
  clear p c d w. intros p c d w IH. cbv zeta.
  rewrite analyze_split. unfold bind.
  destruct (analyze_head p c d w) as [[[[item0 next]|msg] w1] ev1] eqn:Eh.
  - destruct (analyze_head_trace _ _ _ _ _ _ _ Eh) as (Ho & _).
    destruct (analyze_head_events _ _ _ _ _ _ _ _ _ _ _ _ Eh) as (Hx & _).
    destruct (analyze_head_item _ _ _ _ _ _ _ _ _ _ _ _ _ Eh)
      as (_ & _ & _ & _ & Hnext).
    cbn [fst snd]. destruct next as [[fp fc]|].
    + destruct (Hnext _ _ eq_refl) as (Hlt & _).
      specialize (IH fp fc w1 Hlt). cbv zeta in IH.
      pose proof (levels_left_succ d Hlt).
      unfold analyze_tail, bind.
      destruct (analyze fp fc (d + 1) w1) as [[[[child [e|]]|] w2] ev2];
        cbn [snd ret] in *;
        rewrite ?app_nil_r, executed_commands_app, oracle_prompts_app,
          !length_app; lia.
    + unfold analyze_tail, ret. cbn [snd]. rewrite app_nil_r. lia.
  - destruct (analyze_head_trace _ _ _ _ _ _ _ Eh) as (Ho & _).
    destruct (analyze_head_events _ _ _ _ _ _ _ _ _ _ _ _ Eh) as (Hx & _).
    cbn [snd]. lia.
Qed.

(** X7. Whatever the input and the outcome, one call of analyze runs at
    most maxFollowups + 1 = 6 commands, and never sends more requests to
    the oracle than it has run commands. *)
Theorem analyze_call_budget (p c : string) (d : Z) (w : W) :
  let ev := snd (analyze p c d w) in
  (length (oracle_prompts ev) <= length (executed_commands ev))%nat
  /\ Z.of_nat (length (executed_commands ev)) <= maxFollowups + 1.
Proof.
  cbv zeta. destruct (analyze_events_bound p c d w) as (Ho & Hx).
  split; [exact Ho|].
  destruct (Z_lt_dec d 0) as [Hd|Hd].
  - destruct (String.eqb_spec c "") as [->|Hc].
    + rewrite analyze_empty_command. cbn. unfold maxFollowups. lia.
    + destruct (indent_negative d Hd) as (msg & Hi).
      rewrite (analyze_indent_panic _ _ _ _ _ p c d w msg Hc Hi). cbn.
      unfold maxFollowups. lia.
  - unfold levels_left, maxFollowups in *. lia.
Qed.

(** X8. The commands run by a call that returns are exactly the commands
    recorded in the tree it returns, node by node from the root down:
    each node with a command stands for one run of [sh -c] on it. *)
Theorem analyze_trace_matches_tree
        (p c : string) (d : Z) (w : W) item err w' ev :
  analyze p c d w = (Ret (item, err), w', ev) ->
  executed_commands ev = map argv_of (filter has_command (nodes item)).
Proof.
  revert item err w' ev.
  apply (analyze_level_ind
           (fun p c d w run =>
              forall item err w' ev,
                run = (Ret (item, err), w', ev) ->
                executed_commands ev
                = map argv_of (filter has_command (nodes item)))).
  clear p c d w. intros p c d w IH item err w' ev.
  rewrite analyze_split. unfold bind.
  destruct (analyze_head p c d w) as [[[[item0 next]|msg] w1] ev1] eqn:Eh;
    [|discriminate].
  destruct (analyze_head_trace _ _ _ _ _ _ _ Eh) as (_ & _ & _ & Hrun).
  specialize (Hrun _ eq_refl).
  destruct (analyze_head_item _ _ _ _ _ _ _ _ _ _ _ _ _ Eh)
    as (_ & Hcm & Hf & _ & Hnext).
  assert (Hhas : forall l, map argv_of (filter has_command
                                          (set_FollowUps l item0 :: []))
                           = executed_commands ev1).
  { intros l. rewrite Hrun. cbn. unfold has_command, argv_of. cbn.
    rewrite Hcm. destruct (String.eqb c ""); cbn; rewrite ?Hcm; reflexivity. }
  cbn [fst snd]. destruct next as [[fp fc]|].
  - destruct (Hnext _ _ eq_refl) as (Hlt & _).
    unfold analyze_tail, bind.
    destruct (analyze fp fc (d + 1) w1) as [[[[child cerr]|] w2] ev2] eqn:Ec;
      [|discriminate].
    pose proof (IH fp fc w1 Hlt _ _ _ _ Ec) as Hchild.
    destruct (analyze_tree _ _ _ _ _ _ _ _ _ _ _ _ _ _ (Nat.le_refl _) Ec)
      as (-> & _).
    cbn. intros H; injection H as <- <- <- <-.
    rewrite app_nil_r, executed_commands_app, Hf. cbn [app].
    rewrite nodes_one_follow_up, Hchild, <- (Hhas [child]).
    cbn [filter]. destruct (has_command (set_FollowUps [child] item0));
      reflexivity.
  - cbn. intros H; injection H as <- <- <- <-.
    rewrite app_nil_r, (nodes_leaf _ Hf), <- (Hhas (FollowUps item0)).
    destruct item0; reflexivity.
Qed.

(** X9. The shape of every tree analyze returns: an item that is not
    flagged has no follow-up, and every item below the root has a
    non-empty command and a non-empty prompt. *)
Theorem analyze_tree_shape (p c : string) (d : Z) (w : W) item err w' ev :
  analyze p c d w = (Ret (item, err), w', ev) ->
  Forall (fun x => Flagged x = false -> FollowUps x = []) (nodes item)
  /\ Forall (fun x => Command x <> "" /\ Prompt x <> "") (tl (nodes item)).
Proof.
  revert item err w' ev.
  apply (analyze_level_ind
           (fun p c d w run =>
              forall item err w' ev,
                run = (Ret (item, err), w', ev) ->
                Forall (fun x => Flagged x = false -> FollowUps x = [])
                       (nodes item)
                /\ Forall (fun x => Command x <> "" /\ Prompt x <> "")
                          (tl (nodes item)))).
  clear p c d w. intros p c d w IH item err w' ev.
  rewrite analyze_split. unfold bind.
  destruct (analyze_head p c d w) as [[[[item0 next]|msg] w1] ev1] eqn:Eh;
    [|discriminate].
  destruct (analyze_head_item _ _ _ _ _ _ _ _ _ _ _ _ _ Eh)
    as (_ & _ & Hf & _ & Hnext).
  cbn [fst snd]. destruct next as [[fp fc]|].
  - destruct (Hnext _ _ eq_refl) as (Hlt & Hfc & Hfp & Hfl).
    unfold analyze_tail, bind.
    destruct (analyze fp fc (d + 1) w1) as [[[[child cerr]|] w2] ev2] eqn:Ec;
      [|discriminate].
    destruct (IH fp fc w1 Hlt _ _ _ _ Ec) as (Hc1 & Hc2).
    destruct (analyze_tree _ _ _ _ _ _ _ _ _ _ _ _ _ _ (Nat.le_refl _) Ec)
      as (-> & Hcp & Hcc & _).
    cbn. intros H; injection H as <- <- <- <-.
    rewrite Hf. cbn [app]. rewrite nodes_one_follow_up. cbn [tl]. split.
    + constructor; [|exact Hc1]. cbn. intros Hno. congruence.
    + destruct child; cbn in *. constructor; [|exact Hc2].
      cbn. subst. split; assumption.
  - cbn. intros H; injection H as <- <- <- <-.
    rewrite (nodes_leaf _ Hf). cbn. split; [|constructor].
    constructor; [auto | constructor].
Qed.

(** X10. The prompt argument has no part in what analyze does: with
    another prompt the call makes the same calls to the outside, leaves
    it in the same state, and returns the same item but for the prompt
    of the root. *)
Theorem analyze_ignores_prompt (p p' c : string) (d : Z) (w : W) :
  analyze p' c d w = with_root_prompt p' (analyze p c d w).
Proof.
  rewrite (analyze_equation_1 W GOOS CombinedOutput CreateChatCompletion
                              json_Unmarshal p' c d).
  rewrite (analyze_equation_1 W GOOS CombinedOutput CreateChatCompletion
                              json_Unmarshal p c d).
  cbv beta zeta. unfold with_root_prompt.
  destruct (String.eqb c ""); [reflexivity|].
  unfold bind, lift, Printf, ret.
  destruct (indent d); [|reflexivity].
  destruct (executeCommand c w) as [[[[out [e|]]|] w1] ev1]; try reflexivity.
  destruct (truncateOutput out maxOutputCharacters); [|reflexivity].
  destruct (callOpenAI _ w1) as [[[[v [e|]]|] w2] ev2]; try reflexivity.
  cbn [set_Flagged set_AnalysisDescription set_Alert set_RawOutput Flagged
       Prompt Command AnalysisDescription Alert RawOutput FollowUps].
  destruct (_ && _ && _); [|reflexivity].
  destruct (Z_lt_dec d maxFollowups); [|reflexivity].
  destruct (indent (d + 1)); [|reflexivity].
  destruct (analyze _ _ (d + 1) w2) as [[[[child [e|]]|] w3] ev3];
    reflexivity.
Qed.

(** X11. When the loop condition of line 293 fails on the verdict (the
    verdict is not flagged, or a follow-up field is empty, or the depth
    has reached maxFollowups), the call ends there: the item carries the
    verdict's flag, description and alert and the truncated output, has no
    follow-up, and nothing is run or asked beyond the one command and the
    one request. *)
Theorem analyze_gate_closed
        (p c : string) (d : Z) (w : W) out w1 ev1 t v w2 ev2 :
  c <> "" -> depth_ok d ->
  executeCommand c w = (Ret (out, None), w1, ev1) ->
  truncateOutput out maxOutputCharacters = Ret t ->
  callOpenAI (fullPrompt c t) w1 = (Ret (v, None), w2, ev2) ->
  recursion_gate v d = false ->
  exists ind,
    indent d = Ret ind
    /\ analyze p c d w
       = (Ret (mkAnalysisItem p c (resp_Flagged v) (resp_Description v)
                              (resp_Alert v) t [], None),
          w2, Stdout (ind +++ "Executing command: " +++ c +++ nl)
              :: ev1 ++ ev2).
Proof.
  intros Hc Hd He Ht Ho Hg. destruct (indent_ok d Hd) as (ind & Hi).
  exists ind. split; [exact Hi|].
  rewrite analyze_equation_1. cbv beta zeta.
  rewrite (proj2 (String.eqb_neq _ _) Hc).
  unfold bind, lift, Printf, ret. rewrite Hi, He, Ht, Ho.
  cbn [set_Flagged set_AnalysisDescription set_Alert set_RawOutput Flagged
       Prompt Command AnalysisDescription Alert RawOutput FollowUps].
  unfold recursion_gate in Hg.
  destruct (resp_Flagged v && negb (String.eqb (FollowUpCommand v) "")
            && negb (String.eqb (FollowUpPrompt v) "")) eqn:Eg.
  - cbn [andb] in Hg. apply Z.ltb_ge in Hg.
    destruct (Z_lt_dec d maxFollowups) as [Hlt|_]; [lia|].
    cbn. now rewrite !app_nil_r.
  - cbn. now rewrite !app_nil_r.
Qed.

(** X12. When the loop condition holds on the verdict, at any depth from
    0 up to maxFollowups - 1, the call goes on with exactly one call of
    analyze, one level deeper, on the verdict's follow-up prompt and
    command, after announcing it; the item that call returns becomes the
    only follow-up, and a panic of that call is the panic of this one. *)
Theorem analyze_gate_open
        (p c : string) (d : Z) (w : W) out w1 ev1 t v w2 ev2 :
  c <> "" -> depth_ok d ->
  executeCommand c w = (Ret (out, None), w1, ev1) ->
  truncateOutput out maxOutputCharacters = Ret t ->
  callOpenAI (fullPrompt c t) w1 = (Ret (v, None), w2, ev2) ->
  recursion_gate v d = true ->
  exists ind ind' r3 w3 ev3,
    indent d = Ret ind /\ indent (d + 1) = Ret ind'
    /\ analyze (FollowUpPrompt v) (FollowUpCommand v) (d + 1) w2
       = (r3, w3, ev3)
    /\ analyze p c d w
       = (match r3 with
          | Ret (child, _) =>
              Ret (mkAnalysisItem p c true (resp_Description v)
                                  (resp_Alert v) t [child], None)
          | Panic msg => Panic msg
          end,
          w3,
          Stdout (ind +++ "Executing command: " +++ c +++ nl)
          :: ev1 ++ ev2
          ++ Stdout (ind' +++ "Executing follow-up command: "
                     +++ FollowUpCommand v +++ nl)
          :: ev3).
Proof.
  intros Hc Hd He Ht Ho Hg. unfold recursion_gate in Hg.
  apply andb_prop in Hg as [Hg Hlt]. apply andb_prop in Hg as [Hg Hfp].
  apply andb_prop in Hg as [Hf Hfc].
  apply negb_true_iff, String.eqb_neq in Hfp, Hfc. apply Z.ltb_lt in Hlt.
  destruct (indent_ok d Hd) as (ind & Hi).
  destruct (indent_ok (d + 1)) as (ind' & Hi').
  { unfold depth_ok, maxFollowups in *. split; [lia|].
    transitivity 5; [lia | now vm_compute]. }
  destruct (analyze (FollowUpPrompt v) (FollowUpCommand v) (d + 1) w2)
    as [[r3 w3] ev3] eqn:E3.
  exists ind, ind', r3, w3, ev3. repeat split; auto.
  rewrite (analyze_follow_up _ _ _ _ _ p c d w ind ind' out w1 ev1 t v w2 ev2);
    auto.
  rewrite E3. destruct r3 as [[child [e|]]|]; try reflexivity.
  destruct (analyze_tree _ _ _ _ _ _ _ _ _ _ _ _ _ _ (Nat.le_refl _) E3)
    as (? & _).
  discriminate.
Qed.

(** X13. The check loop of main, whatever its outcome, runs at most
    maxFollowups + 1 = 6 commands per check of the catalog, and never
    sends more requests to the oracle than it has run commands. *)
Theorem main_loop_call_budget
        (cs : list Check) (results : list AnalysisItem) (w : W) :
  let ev := snd (main_loop cs results w) in
  (length (oracle_prompts ev) <= length (executed_commands ev))%nat
  /\ Z.of_nat (length (executed_commands ev))
     <= (maxFollowups + 1) * Z.of_nat (length cs).
Proof.
  cbv zeta. revert results w.
  induction cs as [|chk rest IH]; intros results w.
  - cbn. lia.
  - cbn [main_loop]. unfold bind.
    pose proof (analyze_events_bound (chk_Prompt chk) (chk_Command chk) 0 w)
      as (Ho & Hx).
    cbv zeta in Ho, Hx.
    destruct (analyze (chk_Prompt chk) (chk_Command chk) 0 w)
      as [[[[item [e|]]|] w1] ev1]; cbn [snd] in *.
    + unfold Printf.
      destruct (IH results w1) as (Ho' & Hx').
      destruct (main_loop rest results w1) as [[r2 w2] ev2]. cbn [snd] in *.
      cbn [app]. rewrite executed_commands_app, oracle_prompts_app.
      change (executed_commands (Stdout _ :: ev2)) with (executed_commands ev2).
      change (oracle_prompts (Stdout _ :: ev2)) with (oracle_prompts ev2).
      rewrite !length_app. cbn [length].
      change (levels_left 0) with 5%nat in Hx. unfold maxFollowups in *. lia.
    + destruct (IH (results ++ [item]) w1) as (Ho' & Hx').
      destruct (main_loop rest (results ++ [item]) w1) as [[r2 w2] ev2].
      cbn [snd] in *.
      rewrite executed_commands_app, oracle_prompts_app, !length_app.
      cbn [length].
      change (levels_left 0) with 5%nat in Hx. unfold maxFollowups in *. lia.
    + cbn [length]. change (levels_left 0) with 5%nat in Hx.
      unfold maxFollowups in *. lia.
Qed.

(** X18. Whenever the check loop of main finishes, whatever the runner and
    the oracle did, it has skipped no check: the results are those it
    started with followed by one item per check, in catalog order, each
    with the prompt and the command of its check. *)
Theorem main_loop_skips_no_check
        (cs : list Check) (results : list AnalysisItem) (w : W) out w' ev :
  main_loop cs results w = (Ret out, w', ev) ->
  exists items,
    out = results ++ items
    /\ Forall2 (fun chk item => Prompt item = chk_Prompt chk
                                /\ Command item = chk_Command chk) cs items.
Proof.
  revert results w out w' ev.
  induction cs as [|chk rest IH]; intros results w out w' ev.
  - cbn. intros H; injection H as <- _ _. exists [].
    rewrite app_nil_r. split; [reflexivity | constructor].
  - cbn [main_loop]. unfold bind.
    destruct (analyze (chk_Prompt chk) (chk_Command chk) 0 w)
      as [[[[item err]|] w1] ev1] eqn:Ea; [|discriminate].
    destruct (analyze_tree _ _ _ _ _ _ _ _ _ _ _ _ _ _ (Nat.le_refl _) Ea)
      as (-> & Hp & Hc & _).
    destruct (main_loop rest (results ++ [item]) w1) as [[r2 w2] ev2] eqn:El.
    intros H; injection H as -> _ _.
    destruct (IH _ _ _ _ _ El) as (items & -> & HF).
    exists (item :: items). rewrite <- app_assoc. split; [reflexivity|].
    constructor; auto.
Qed.

(** X19. callOpenAI sends exactly one request whatever comes back: the
    system message for the detected operating system followed by the
    prompt, unchanged, as the only user message.  When it returns an
    error, from the transport or from the decoder, the verdict beside the
    error is the zero value: nothing the decoder had filled in before it
    failed gets out. *)
Theorem callOpenAI_one_request_no_partial_verdict (prompt : string) (w : W) :
  exists r,
    callOpenAI prompt w
    = (r, snd (CreateChatCompletion (chatRequest (detectOS GOOS) prompt) w),
       [ChatCompletion (chatRequest (detectOS GOOS) prompt)])
    /\ user_content (chatRequest (detectOS GOOS) prompt) = [prompt]
    /\ (forall v e, r = Ret (v, Some e) -> v = GPTResponse_zero).
Proof.
  unfold callOpenAI, bind, ret, lift.
  destruct (CreateChatCompletion (chatRequest (detectOS GOOS) prompt) w)
    as [[resp [e|]] w1]; cbn [snd].
  - eexists; split; [reflexivity|]. split; [reflexivity|].
    intros v e' H; injection H as <- _. reflexivity.
  - destruct (Choices resp) as [|content rest].
    + eexists; split; [reflexivity|]. split; [reflexivity|]. discriminate.
    + destruct (json_Unmarshal content) as [partial [e|]];
        (eexists; split; [reflexivity|]; split; [reflexivity|]).
      * intros v e' H; injection H as <- _. reflexivity.
      * discriminate.
Qed.

End EngineMore.

(** ** main and package db *)

Lemma sink_events_app (e1 e2 : list MainEvent) :
  sink_events (e1 ++ e2) = sink_events e1 ++ sink_events e2.
Proof. apply filter_app. Qed.

Lemma sink_events_engine (ev : list Event) : sink_events (map Engine ev) = [].
Proof. induction ev as [|e ev IH]; cbn; auto. Qed.

Lemma engine_events_app (e1 e2 : list MainEvent) :
  engine_events (e1 ++ e2) = engine_events e1 ++ engine_events e2.
Proof. apply flat_map_app. Qed.

Lemma engine_events_engine (ev : list Event) : engine_events (map Engine ev) = ev.
Proof. induction ev as [|e ev IH]; cbn; [|f_equal; exact IH]; auto. Qed.

Section ProgramFacts.

Variable W : Type.
Variable GOOS : string.
Variable CombinedOutput : string -> W -> CmdOutcome * W.
Variable NewClient :
  string -> ChatCompletionRequest -> W
  -> (ChatCompletionResponse * option error) * W.
Variable json_Unmarshal : string -> GPTResponse * option error.
Variable Getenv : string -> W -> string * W.
Variable Handle : Type.
Variable gorm_Open : string -> W -> (option Handle * option error) * W.
Variable AutoMigrate : Handle -> W -> option error * W.
Variable DB_Create : Handle -> Log -> W -> option error * W.
Variable Time : Type.
Variable time_Now : W -> Time * W.
Variable time_Format : Time -> string -> string.
Variable json_MarshalIndent : Report -> string -> string -> string + error.
Variable os_WriteFile : string -> string -> Z -> W -> option error * W.

Abbreviation InitDB := (InitDB W Handle gorm_Open AutoMigrate).
Abbreviation CreateLog := (CreateLog W Handle DB_Create Time time_Format).
Abbreviation main :=
  (main W GOOS CombinedOutput NewClient json_Unmarshal Getenv Handle
        gorm_Open AutoMigrate DB_Create Time time_Now time_Format
        json_MarshalIndent os_WriteFile).
Abbreviation st := (mkProgState W Handle).

(** InitDB keeps whatever handle [gorm.Open] returned in [DB], also
    when the open failed.  It returns the error of the open without
    migrating; after a good open it returns the error of the migration, or
    nil; and it panics when the open returned neither an error nor a
    handle. *)
Lemma InitDB_cases (w : W) (db0 : option Handle) h oerr w1 :
  gorm_Open "test.db" w = (h, oerr, w1) ->
  match oerr, h with
  | Some e, _ =>
      InitDB (st w db0) = (Ret (Some e), st w1 h, [EvOpen "test.db"])
  | None, Some handle =>
      InitDB (st w db0)
      = (Ret (fst (AutoMigrate handle w1)),
         st (snd (AutoMigrate handle w1)) h,
         [EvOpen "test.db"; EvAutoMigrate])
  | None, None =>
      exists msg, InitDB (st w db0) = (Panic msg, st w1 None, [EvOpen "test.db"])
  end.
Proof.
  intros Ho. unfold InitDB, pbind, pret, on_DB, call. cbn [outside DB].
  rewrite Ho. destruct oerr as [e|]; [reflexivity|].
  destruct h as [handle|]; cbn [outside DB]; [|eauto].
  destruct (AutoMigrate handle w1) as [[e|] w2]; reflexivity.
Qed.

(** X14. InitDB and CreateLog together: once InitDB has returned nil,
    [DB] holds a handle, and CreateLog does not panic; it stores exactly
    one record, whose date is the time in the layout
    [2006-01-02 15:04:05] and whose content is the text given, returns the
    error of the store and leaves [DB] as it is. *)
Theorem CreateLog_after_InitDB (s s1 : ProgState W Handle) ev1
        (date : Time) (content : string) :
  InitDB s = (Ret None, s1, ev1) ->
  exists handle err w2,
    DB _ _ s1 = Some handle
    /\ DB_Create handle (mkLog (time_Format date "2006-01-02 15:04:05") content)
                 (outside _ _ s1) = (err, w2)
    /\ CreateLog date content s1
       = (Ret err, st w2 (Some handle),
          [EvCreate (mkLog (time_Format date "2006-01-02 15:04:05") content)]).
Proof.
  intros Hi. destruct s as [w db0].
  destruct (gorm_Open "test.db" w) as [[h oerr] w1] eqn:Ho.
  pose proof (InitDB_cases w db0 h oerr w1 Ho) as Hc.
  destruct oerr as [e|]; [|destruct h as [handle|]].
  - rewrite Hc in Hi. discriminate.
  - rewrite Hc in Hi. injection Hi as _ <- _.
    destruct (DB_Create handle
                (mkLog (time_Format date "2006-01-02 15:04:05") content)
                (snd (AutoMigrate handle w1))) as [err w2] eqn:Hcr.
    exists handle, err, w2. cbn [DB outside]. repeat split; auto.
    unfold CreateLog, on_DB, call. cbn [DB outside]. rewrite Hcr. reflexivity.
  - destruct Hc as (msg & Hc). rewrite Hc in Hi. discriminate.
Qed.

(** X15. Without the key in the environment main prints that the key is
    not set and returns: it opens no log store, runs no command, asks no
    oracle, and writes neither a log record nor a file. *)
Theorem main_without_key (w : W) (db0 : option Handle) w1 :
  Getenv "OPENAI_API_KEY" w = ("", w1) ->
  main (st w db0)
  = (Ret tt, st w1 db0,
     [EvGetenv "OPENAI_API_KEY";
      Engine (Stdout ("OpenAI API key is not set" +++ nl))]).
Proof.
  intros Hk. unfold main, pbind, call, print. cbn [outside DB].
  rewrite Hk. reflexivity.
Qed.

(** X16. When InitDB returns an error main prints it and returns: no
    command is run, the oracle is not asked, and neither a log record nor
    a file is written; the only calls to the outside are the reading of
    the key and those of InitDB. *)
Theorem main_without_log_store
        (w : W) (db0 : option Handle) key w1 e s2 ev2 :
  Getenv "OPENAI_API_KEY" w = (key, w1) -> key <> "" ->
  InitDB (st w1 db0) = (Ret (Some e), s2, ev2) ->
  main (st w db0)
  = (Ret tt, s2,
     EvGetenv "OPENAI_API_KEY" :: ev2
     ++ [Engine (Stdout ("Error initializing database: " +++ e +++ nl))])
  /\ engine_events ev2 = [] /\ sink_events ev2 = []
  /\ (forall x, In x ev2 -> x = EvOpen "test.db" \/ x = EvAutoMigrate).
Proof.
  intros Hk Hne Hi. split.
  - unfold main, pbind, call, print. cbn [outside DB].
    rewrite Hk, (proj2 (String.eqb_neq _ _) Hne), Hi. cbn.
    rewrite ?app_nil_r. reflexivity.
  - destruct (gorm_Open "test.db" w1) as [[h oerr] w2] eqn:Ho.
    pose proof (InitDB_cases w1 db0 h oerr w2 Ho) as Hc.
    destruct oerr as [e'|]; [|destruct h as [handle|]].
    + rewrite Hc in Hi. injection Hi as _ _ <-. cbn.
      repeat split; auto. intros x [<-|[]]; auto.
    + rewrite Hc in Hi. injection Hi as _ _ <-. cbn.
      repeat split; auto. intros x [<-|[<-|[]]]; auto.
    + destruct Hc as (msg & Hc). rewrite Hc in Hi. discriminate.
Qed.

(** What InitDB has done when it returns nil. *)
Lemma InitDB_nil (s s1 : ProgState W Handle) ev1 :
  InitDB s = (Ret None, s1, ev1) ->
  (exists handle, DB _ _ s1 = Some handle)
  /\ ev1 = [EvOpen "test.db"; EvAutoMigrate].
Proof.
  intros Hi. destruct s as [w db0].
  destruct (gorm_Open "test.db" w) as [[h oerr] w1] eqn:Ho.
  pose proof (InitDB_cases w db0 h oerr w1 Ho) as Hc.
  destruct oerr as [e|]; [|destruct h as [handle|]].
  - rewrite Hc in Hi. discriminate.
  - rewrite Hc in Hi. injection Hi as _ <- <-. cbn. eauto.
  - destruct Hc as (msg & Hc). rewrite Hc in Hi. discriminate.
Qed.

(** X17. With the key set and the log store open, and an oracle that never
    answers a successful request without a choice, main returns after it
    has analysed the macOS catalog, one root item per check in order,
    whatever [runtime.GOOS] is.  It then writes to the two sinks exactly
    once each, the log record first and the file [report.json] (mode
    0644) second, both with the same text: the rendering of the report,
    or the empty text when the rendering failed.  An error of either sink
    does not stop it. *)
Theorem main_hands_report_to_both_sinks
        (w : W) (db0 : option Handle) key w1 s1 ev1 :
  Getenv "OPENAI_API_KEY" w = (key, w1) -> key <> "" ->
  InitDB (st w1 db0) = (Ret None, s1, ev1) ->
  choices_present W (NewClient key) ->
  exists items now content s' evs,
    main (st w db0) = (Ret tt, s', evs)
    /\ Forall2 (fun chk item => Prompt item = chk_Prompt chk
                                /\ Command item = chk_Command chk)
               checks_MacOS items
    /\ content = match json_MarshalIndent (mkReport items) "" "  " with
                 | inl bytes => bytes
                 | inr _ => ""
                 end
    /\ sink_events evs
       = [EvCreate (mkLog (time_Format now "2006-01-02 15:04:05") content);
          EvWriteFile "report.json" content 420]
    /\ DB _ _ s' = DB _ _ s1.
Proof.
  intros Hk Hne Hi Hc.
  destruct (InitDB_nil _ _ _ Hi) as ((handle & Hdb) & ->).
  destruct s1 as [w2 db1]. cbn [DB] in Hdb. subst db1.
  destruct (main_loop_items W GOOS CombinedOutput (NewClient key)
              json_Unmarshal checks_MacOS Hc [] w2)
    as (items & w3 & ev & Hloop & HF).
  destruct (time_Now w3) as [now w4] eqn:Hnow.
  set (content := match json_MarshalIndent (mkReport items) "" "  " with
                  | inl bytes => bytes
                  | inr _ => ""
                  end).
  set (log := mkLog (time_Format now "2006-01-02 15:04:05") content).
  destruct (DB_Create handle log w4) as [cerr w5] eqn:Hcr.
  destruct (os_WriteFile "report.json" content 420 w5) as [werr w6] eqn:Hwr.
  exists items, now, content, (st w6 (Some handle)).
  assert (Hmain :
    exists pre post,
      main (st w db0)
      = (Ret tt, st w6 (Some handle),
         [EvGetenv "OPENAI_API_KEY"; EvOpen "test.db"; EvAutoMigrate]
         ++ map Engine (ev ++ [])
         ++ map Engine pre
         ++ [EvCreate log; EvWriteFile "report.json" content 420]
         ++ map Engine post)).
  { unfold main, pbind, call, print, engine, pret. cbn [outside DB].
    rewrite Hk, (proj2 (String.eqb_neq _ _) Hne), Hi. cbn [outside DB].
    unfold main_report, bind, ret. rewrite Hloop. cbn [app].
    unfold CreateLog, on_DB, call.
    subst content log.
    destruct (json_MarshalIndent (mkReport items) "" "  ") as [bytes|e];
      cbn [outside DB]; rewrite Hnow; cbn [outside DB];
      rewrite Hcr; cbn [outside DB]; rewrite Hwr;
      destruct werr as [e'|].
    - exists [], [Stdout ("Error writing report to file: " +++ e' +++ nl)].
      cbn. rewrite ?app_nil_r. reflexivity.
    - exists [], []. cbn. rewrite ?app_nil_r. reflexivity.
    - exists [Stdout ("Error marshalling report: " +++ e +++ nl)],
             [Stdout ("Error writing report to file: " +++ e' +++ nl)].
      cbn. rewrite ?app_nil_r, <- ?app_assoc. reflexivity.
    - exists [Stdout ("Error marshalling report: " +++ e +++ nl)], [].
      cbn. rewrite ?app_nil_r, <- ?app_assoc. reflexivity. }
  destruct Hmain as (pre & post & Hmain).
  eexists. split; [exact Hmain|]. split; [exact HF|]. split; [reflexivity|].
  split; [|reflexivity].
  rewrite !sink_events_app, !sink_events_engine. reflexivity.
Qed.

End ProgramFacts.

(** ** Instances of the further facts on the test doubles *)

Lemma truncateOutput_negative_bound_panics_witness :
  -1 < 0 /\ exists msg, truncateOutput "" (-1) = Panic msg.
Proof.
  split; [lia|]. apply (truncateOutput_negative_bound_panics "" (-1)). lia.
Defined.

Lemma truncateOutput_twice_witness :
  0 <= 4 /\ 0 <= 2 /\ truncateOutput "abcdef" 4 = Ret "abcd"
  /\ truncateOutput "abcd" 2 = truncateOutput "abcdef" (Z.min 4 2)
  /\ truncateOutput "abcd" 4 = Ret "abcd".
Proof.
  split; [lia|]. split; [lia|]. split; [reflexivity|].
  apply (truncateOutput_twice "abcdef" "abcd" 4 2); [lia | lia | reflexivity].
Defined.

Lemma analyze_trace_matches_tree_witness :
  exists item err w' ev,
    stub_analyze (Stub.oracle_script [Stub.reply_flag; Stub.reply_clear])
                 "check" "echo ok" 0 0%nat
    = (Ret (item, err), w', ev)
    /\ executed_commands ev = map argv_of (filter has_command (nodes item)).
Proof.
  do 4 eexists. split.
  - vm_compute. reflexivity.
  - eapply (analyze_trace_matches_tree
              Stub.World "darwin" Stub.runner
              (Stub.oracle_script [Stub.reply_flag; Stub.reply_clear])
              Stub.decode "check" "echo ok" 0 0%nat).
    vm_compute. reflexivity.
Defined.

Lemma analyze_tree_shape_witness :
  exists item err w' ev,
    stub_analyze (Stub.oracle_always Stub.reply_flag) "check" "echo ok" 3 0%nat
    = (Ret (item, err), w', ev)
    /\ Forall (fun x => Flagged x = false -> FollowUps x = []) (nodes item)
    /\ Forall (fun x => Command x <> "" /\ Prompt x <> "") (tl (nodes item)).
Proof.
  do 4 eexists. split.
  - vm_compute. reflexivity.
  - eapply (analyze_tree_shape
              Stub.World "darwin" Stub.runner
              (Stub.oracle_always Stub.reply_flag) Stub.decode
              "check" "echo ok" 3 0%nat).
    vm_compute. reflexivity.
Defined.

Lemma analyze_gate_closed_witness :
  let t := "output of echo ok" +++ nl in
  let v := mkGPTResponse true "susp" "deeper" "echo f" "" in
  "echo ok" <> "" /\ depth_ok maxFollowups
  /\ recursion_gate v maxFollowups = false
  /\ exists ind,
      indent maxFollowups = Ret ind
      /\ stub_analyze (Stub.oracle_always Stub.reply_flag)
                      "check" "echo ok" maxFollowups 0%nat
         = (Ret (mkAnalysisItem "check" "echo ok" true "susp" "" t [], None),
            1%nat,
            Stdout (ind +++ "Executing command: " +++ "echo ok" +++ nl)
            :: [Exec ["sh"; "-c"; "echo ok"] commandTimeout]
            ++ [ChatCompletion (chatRequest "macOS" (fullPrompt "echo ok" t))]).
Proof.
  cbv zeta. split; [discriminate|]. split; [now vm_compute|].
  split; [reflexivity|].
  apply (analyze_gate_closed
           Stub.World "darwin" Stub.runner
           (Stub.oracle_always Stub.reply_flag) Stub.decode
           "check" "echo ok" maxFollowups 0%nat
           ("output of echo ok" +++ nl) 0%nat
           [Exec ["sh"; "-c"; "echo ok"] commandTimeout]
           ("output of echo ok" +++ nl)
           (mkGPTResponse true "susp" "deeper" "echo f" "") 1%nat
           [ChatCompletion
              (chatRequest "macOS"
                 (fullPrompt "echo ok" ("output of echo ok" +++ nl)))]);
    first [discriminate | now vm_compute | reflexivity].
Defined.

Lemma analyze_gate_open_witness :
  let oracle := Stub.oracle_script [Stub.reply_flag; Stub.reply_clear] in
  let t := "output of echo ok" +++ nl in
  let v := mkGPTResponse true "susp" "deeper" "echo f" "" in
  let ev1 := [Exec ["sh"; "-c"; "echo ok"] commandTimeout] in
  let ev2 := [ChatCompletion (chatRequest "macOS" (fullPrompt "echo ok" t))] in
  "echo ok" <> "" /\ depth_ok 0 /\ recursion_gate v 0 = true
  /\ exists ind ind' r3 w3 ev3,
      indent 0 = Ret ind /\ indent (0 + 1) = Ret ind'
      /\ stub_analyze oracle "deeper" "echo f" (0 + 1) 1%nat = (r3, w3, ev3)
      /\ stub_analyze oracle "check" "echo ok" 0 0%nat
         = (match r3 with
            | Ret (child, _) =>
                Ret (mkAnalysisItem "check" "echo ok" true "susp" "" t [child],
                     None)
            | Panic msg => Panic msg
            end,
            w3,
            Stdout (ind +++ "Executing command: " +++ "echo ok" +++ nl)
            :: ev1 ++ ev2
            ++ Stdout (ind' +++ "Executing follow-up command: "
                       +++ "echo f" +++ nl)
            :: ev3).
Proof.
  cbv zeta. split; [discriminate|]. split; [now vm_compute|].
  split; [reflexivity|].
  apply (analyze_gate_open
           Stub.World "darwin" Stub.runner
           (Stub.oracle_script [Stub.reply_flag; Stub.reply_clear]) Stub.decode
           "check" "echo ok" 0 0%nat
           ("output of echo ok" +++ nl) 0%nat
           [Exec ["sh"; "-c"; "echo ok"] commandTimeout]
           ("output of echo ok" +++ nl)
           (mkGPTResponse true "susp" "deeper" "echo f" "") 1%nat
           [ChatCompletion
              (chatRequest "macOS"
                 (fullPrompt "echo ok" ("output of echo ok" +++ nl)))]);
    first [discriminate | now vm_compute | reflexivity].
Defined.

Lemma main_loop_skips_no_check_witness :
  exists out w' ev,
    main_loop Stub.World "darwin" Stub.runner
              (Stub.oracle_script [Stub.reply_flag]) Stub.decode
              [mkCheck "echo ok" "check"; mkCheck "false" "other"] [] 0%nat
    = (Ret out, w', ev)
    /\ exists items,
        out = [] ++ items
        /\ Forall2 (fun chk item => Prompt item = chk_Prompt chk
                                    /\ Command item = chk_Command chk)
                   [mkCheck "echo ok" "check"; mkCheck "false" "other"] items.
Proof.
  do 3 eexists. split.
  - vm_compute. reflexivity.
  - eapply (main_loop_skips_no_check
              Stub.World "darwin" Stub.runner
              (Stub.oracle_script [Stub.reply_flag]) Stub.decode
              [mkCheck "echo ok" "check"; mkCheck "false" "other"] [] 0%nat).
    vm_compute. reflexivity.
Defined.

Abbreviation stub_main getenv gorm_open create render write :=
  (main Stub.World "darwin" Stub.runner StubProgram.client_clear Stub.decode
        getenv StubProgram.Handle gorm_open StubProgram.migrate_ok create
        StubProgram.Time StubProgram.now StubProgram.format render write).

Abbreviation stub_state := (mkProgState Stub.World StubProgram.Handle).

Lemma CreateLog_after_InitDB_witness :
  InitDB Stub.World StubProgram.Handle StubProgram.open_ok
         StubProgram.migrate_ok (stub_state 0%nat None)
  = (Ret None, stub_state 0%nat (Some tt), [EvOpen "test.db"; EvAutoMigrate])
  /\ exists handle err w2,
      DB _ _ (stub_state 0%nat (Some tt)) = Some handle
      /\ StubProgram.create_fails handle
           (mkLog (StubProgram.format 7%nat "2006-01-02 15:04:05") "text")
           (outside _ _ (stub_state 0%nat (Some tt))) = (err, w2)
      /\ CreateLog Stub.World StubProgram.Handle StubProgram.create_fails
                   StubProgram.Time StubProgram.format 7%nat "text"
                   (stub_state 0%nat (Some tt))
         = (Ret err, stub_state w2 (Some handle),
            [EvCreate (mkLog (StubProgram.format 7%nat "2006-01-02 15:04:05")
                             "text")]).
Proof.
  split; [reflexivity|].
  apply (CreateLog_after_InitDB
           Stub.World StubProgram.Handle StubProgram.open_ok
           StubProgram.migrate_ok StubProgram.create_fails
           StubProgram.Time StubProgram.format
           (stub_state 0%nat None) (stub_state 0%nat (Some tt))
           [EvOpen "test.db"; EvAutoMigrate] 7%nat "text").
  reflexivity.
Defined.

Lemma main_without_key_witness :
  StubProgram.getenv_empty "OPENAI_API_KEY" 0%nat = ("", 0%nat)
  /\ stub_main StubProgram.getenv_empty StubProgram.open_ok
               StubProgram.create_fails StubProgram.render
               StubProgram.write_fails (stub_state 0%nat None)
     = (Ret tt, stub_state 0%nat None,
        [EvGetenv "OPENAI_API_KEY";
         Engine (Stdout ("OpenAI API key is not set" +++ nl))]).
Proof.
  split; [reflexivity|].
  apply (main_without_key
           Stub.World "darwin" Stub.runner StubProgram.client_clear Stub.decode
           StubProgram.getenv_empty StubProgram.Handle StubProgram.open_ok
           StubProgram.migrate_ok StubProgram.create_fails
           StubProgram.Time StubProgram.now StubProgram.format
           StubProgram.render StubProgram.write_fails 0%nat None 0%nat).
  reflexivity.
Defined.

Lemma main_without_log_store_witness :
  let e := "unable to open database file" in
  StubProgram.getenv_with_key "OPENAI_API_KEY" 0%nat = ("sk-test", 0%nat)
  /\ "sk-test" <> ""
  /\ InitDB Stub.World StubProgram.Handle StubProgram.open_fails
            StubProgram.migrate_ok (stub_state 0%nat None)
     = (Ret (Some e), stub_state 0%nat None, [EvOpen "test.db"])
  /\ stub_main StubProgram.getenv_with_key StubProgram.open_fails
               StubProgram.create_fails StubProgram.render
               StubProgram.write_fails (stub_state 0%nat None)
     = (Ret tt, stub_state 0%nat None,
        EvGetenv "OPENAI_API_KEY" :: [EvOpen "test.db"]
        ++ [Engine (Stdout ("Error initializing database: " +++ e +++ nl))]).
Proof.
  cbv zeta. split; [reflexivity|]. split; [discriminate|].
  split; [reflexivity|].
  apply (main_without_log_store
           Stub.World "darwin" Stub.runner StubProgram.client_clear Stub.decode
           StubProgram.getenv_with_key StubProgram.Handle StubProgram.open_fails
           StubProgram.migrate_ok StubProgram.create_fails
           StubProgram.Time StubProgram.now StubProgram.format
           StubProgram.render StubProgram.write_fails
           0%nat None "sk-test" 0%nat "unable to open database file"
           (stub_state 0%nat None) [EvOpen "test.db"]);
    first [reflexivity | discriminate].
Defined.

Lemma main_hands_report_to_both_sinks_witness :
  StubProgram.getenv_with_key "OPENAI_API_KEY" 0%nat = ("sk-test", 0%nat)
  /\ "sk-test" <> ""
  /\ InitDB Stub.World StubProgram.Handle StubProgram.open_ok
            StubProgram.migrate_ok (stub_state 0%nat None)
     = (Ret None, stub_state 0%nat (Some tt), [EvOpen "test.db"; EvAutoMigrate])
  /\ choices_present Stub.World (StubProgram.client_clear "sk-test")
  /\ exists items now content s' evs,
      stub_main StubProgram.getenv_with_key StubProgram.open_ok
                StubProgram.create_fails StubProgram.render_fails
                StubProgram.write_fails (stub_state 0%nat None)
      = (Ret tt, s', evs)
      /\ Forall2 (fun chk item => Prompt item = chk_Prompt chk
                                  /\ Command item = chk_Command chk)
                 checks_MacOS items
      /\ content = match StubProgram.render_fails (mkReport items) "" "  " with
                   | inl bytes => bytes
                   | inr _ => ""
                   end
      /\ sink_events evs
         = [EvCreate (mkLog (StubProgram.format now "2006-01-02 15:04:05")
                            content);
            EvWriteFile "report.json" content 420]
      /\ DB _ _ s' = DB _ _ (stub_state 0%nat (Some tt)).
Proof.
  split; [reflexivity|]. split; [discriminate|]. split; [reflexivity|].
  split; [apply oracle_always_choices_present|].
  apply (main_hands_report_to_both_sinks
           Stub.World "darwin" Stub.runner StubProgram.client_clear Stub.decode
           StubProgram.getenv_with_key StubProgram.Handle StubProgram.open_ok
           StubProgram.migrate_ok StubProgram.create_fails
           StubProgram.Time StubProgram.now StubProgram.format
           StubProgram.render_fails StubProgram.write_fails
           0%nat None "sk-test" 0%nat (stub_state 0%nat (Some tt))
           [EvOpen "test.db"; EvAutoMigrate]);
    first [reflexivity | discriminate | apply oracle_always_choices_present].
Defined.

(** A whole run on the test doubles: 24 commands, 24 requests, and the two
    sinks written once each with the rendered report. *)
Example scenario_whole_run :
  let run := stub_main StubProgram.getenv_with_key StubProgram.open_ok
                       StubProgram.create_fails StubProgram.render
                       StubProgram.write_fails (stub_state 0%nat None) in
  fst (fst run) = Ret tt
  /\ length (executed_commands (engine_events (snd run))) = 24%nat
  /\ length (oracle_prompts (engine_events (snd run))) = 24%nat
  /\ map (fun e => match e with
                   | EvCreate log => log_Content log
                   | EvWriteFile _ data _ => data
                   | _ => ""
                   end) (sink_events (snd run))
     = [String.concat ";" (map chk_Command checks_MacOS);
        String.concat ";" (map chk_Command checks_MacOS)].
Proof. cbv zeta. now vm_compute. Qed.

(** ** A successful reply without a choice *)

Section ReplyWithoutChoice.

Variable W : Type.
Variable GOOS : string.
Variable CombinedOutput : string -> W -> CmdOutcome * W.
Variable CreateChatCompletion :
  ChatCompletionRequest -> W -> (ChatCompletionResponse * option error) * W.
Variable json_Unmarshal : string -> GPTResponse * option error.

Abbreviation executeCommand := (executeCommand W CombinedOutput).
Abbreviation callOpenAI := (callOpenAI W GOOS CreateChatCompletion json_Unmarshal).
Abbreviation analyze :=
  (analyze W GOOS CombinedOutput CreateChatCompletion json_Unmarshal).
Abbreviation main_loop :=
  (main_loop W GOOS CombinedOutput CreateChatCompletion json_Unmarshal).

Lemma callOpenAI_without_choice (prompt : string) (w : W) resp w1 :
  CreateChatCompletion (chatRequest (detectOS GOOS) prompt) w
  = (resp, None, w1) ->
  Choices resp = [] ->
  callOpenAI prompt w
  = (Panic "runtime error: index out of range [0] with length 0", w1,
     [ChatCompletion (chatRequest (detectOS GOOS) prompt)]).
Proof.
  intros Hchat Hno. unfold callOpenAI, bind, ret, lift.
  rewrite Hchat, Hno. reflexivity.
Qed.

(** X3. Whenever the chat completion call returns no error and a response
    without any choice, callOpenAI panics on [resp.Choices[0]] after the
    one request, and returns nothing.  A call of analyze that gets as far
    as that request, at any depth from 0 to maxFollowups and with any
    prompt and command, then panics too: it returns no item, so the
    failure is not absorbed; what it has done by then is the print, the
    command and the request.  The check loop of main whose first check
    meets such a reply panics with it and analyses no further check. *)
Theorem reply_without_choice_is_not_absorbed :
  (forall prompt w resp w1,
      CreateChatCompletion (chatRequest (detectOS GOOS) prompt) w
      = (resp, None, w1) ->
      Choices resp = [] ->
      exists msg,
        callOpenAI prompt w
        = (Panic msg, w1,
           [ChatCompletion (chatRequest (detectOS GOOS) prompt)]))
  /\ (forall p c d w out w1 ev1 t resp w2,
        c <> "" -> 0 <= d <= maxFollowups ->
        executeCommand c w = (Ret (out, None), w1, ev1) ->
        truncateOutput out maxOutputCharacters = Ret t ->
        CreateChatCompletion (chatRequest (detectOS GOOS) (fullPrompt c t)) w1
        = (resp, None, w2) ->
        Choices resp = [] ->
        exists msg ind,
          indent d = Ret ind
          /\ analyze p c d w
             = (Panic msg, w2,
                Stdout (ind +++ "Executing command: " +++ c +++ nl)
                :: ev1
                ++ [ChatCompletion
                      (chatRequest (detectOS GOOS) (fullPrompt c t))])
          /\ forall chk rest results,
              chk_Command chk = c ->
              d = 0 ->
              main_loop (chk :: rest) results w
              = (Panic msg, w2,
                 Stdout (ind +++ "Executing command: " +++ c +++ nl)
                 :: ev1
                 ++ [ChatCompletion
                       (chatRequest (detectOS GOOS) (fullPrompt c t))])).
Proof.
  split.
  - intros prompt w resp w1 Hchat Hno. eexists.
    exact (callOpenAI_without_choice prompt w resp w1 Hchat Hno).
  - intros p c d w out w1 ev1 t resp w2 Hc Hd Hx Ht Hchat Hno.
    destruct (indent_ok d (levels_depth_ok d Hd)) as (ind & Hi).
    exists "runtime error: index out of range [0] with length 0", ind.
    split; [exact Hi|].
    assert (Hpanic : forall q,
               analyze q c d w
               = (Panic "runtime error: index out of range [0] with length 0",
                  w2,
                  Stdout (ind +++ "Executing command: " +++ c +++ nl)
                  :: ev1
                  ++ [ChatCompletion
                        (chatRequest (detectOS GOOS) (fullPrompt c t))])).
    { intros q. rewrite analyze_equation_1. cbv beta zeta.
      rewrite (proj2 (String.eqb_neq _ _) Hc).
      unfold bind, lift, Printf, ret. rewrite Hi, Hx, Ht.
      rewrite (callOpenAI_without_choice _ _ _ _ Hchat Hno).
      cbn. rewrite ?app_nil_r. reflexivity. }
    split; [apply Hpanic|].
    intros chk rest results Hcmd ->. cbn [main_loop]. unfold bind.
    rewrite Hcmd, Hpanic. reflexivity.
Qed.

End ReplyWithoutChoice.

Lemma reply_without_choice_is_not_absorbed_witness :
  let t := "output of echo ok" +++ nl in
  let request := chatRequest "macOS" (fullPrompt "echo ok" t) in
  Stub.oracle_no_choice request 0%nat = (mkResponse [], None, 1%nat)
  /\ Choices (mkResponse []) = []
  /\ (exists msg,
         callOpenAI Stub.World "darwin" Stub.oracle_no_choice Stub.decode
                    (fullPrompt "echo ok" t) 0%nat
         = (Panic msg, 1%nat, [ChatCompletion request]))
  /\ (exists msg ind,
         indent 0 = Ret ind
         /\ stub_analyze Stub.oracle_no_choice "check" "echo ok" 0 0%nat
            = (Panic msg, 1%nat,
               Stdout (ind +++ "Executing command: " +++ "echo ok" +++ nl)
               :: [Exec ["sh"; "-c"; "echo ok"] commandTimeout]
               ++ [ChatCompletion request])).
Proof.
  cbv zeta.
  pose proof (reply_without_choice_is_not_absorbed
                Stub.World "darwin" Stub.runner Stub.oracle_no_choice
                Stub.decode) as (Hcall & Hanalyze).
  split; [reflexivity|]. split; [reflexivity|]. split.
  - apply (Hcall (fullPrompt "echo ok" ("output of echo ok" +++ nl)) 0%nat
                 (mkResponse []) 1%nat); reflexivity.
  - destruct (Hanalyze "check" "echo ok" 0 0%nat
                       ("output of echo ok" +++ nl) 0%nat
                       [Exec ["sh"; "-c"; "echo ok"] commandTimeout]
                       ("output of echo ok" +++ nl) (mkResponse []) 1%nat)
      as (msg & ind & Hi & Ha & _);
      first [discriminate | reflexivity | (unfold maxFollowups; lia) | idtac].
    exists msg, ind. split; [exact Hi | exact Ha].
Defined.

(** C3, on the code.  The chat service answers the request of the first
    check without error and without any choice.  analyze returns no item
    for that check: it panics on [resp.Choices[0]].  The check loop of
    main returns no report: it panics with it, and the second check is
    never analysed, its command never run.  main as a whole panics after
    the key and the log store, and writes neither the log record nor the
    file. *)
Theorem run_aborts_on_reply_without_choice :
  let catalog := [mkCheck "echo ok" "check"; mkCheck "echo two" "second"] in
  let first :=
    stub_analyze Stub.oracle_no_choice "check" "echo ok" 0 0%nat in
  let loop :=
    main_report Stub.World "darwin" Stub.runner Stub.oracle_no_choice
                Stub.decode catalog 0%nat in
  let whole :=
    main Stub.World "darwin" Stub.runner (fun _ => Stub.oracle_no_choice)
         Stub.decode StubProgram.getenv_with_key StubProgram.Handle
         StubProgram.open_ok StubProgram.migrate_ok StubProgram.create_fails
         StubProgram.Time StubProgram.now StubProgram.format
         StubProgram.render StubProgram.write_fails
         (mkProgState Stub.World StubProgram.Handle 0%nat None) in
  fst (fst first) = Panic "runtime error: index out of range [0] with length 0"
  /\ fst (fst loop) = Panic "runtime error: index out of range [0] with length 0"
  /\ executed_commands (snd loop) = [["sh"; "-c"; "echo ok"]]
  /\ length (oracle_prompts (snd loop)) = 1%nat
  /\ fst (fst whole) = Panic "runtime error: index out of range [0] with length 0"
  /\ length (executed_commands (engine_events (snd whole))) = 1%nat
  /\ sink_events (snd whole) = [].
Proof. cbv zeta. now vm_compute. Qed.
